(** * email_server.py: SMTP sender with retry and a bounded worker pool

    A shallow embedding of [src/email_server.py] (class [EmailSender] and the
    Flask handler [send_bulk_emails]) and the properties of its dispatch and
    retry engine.

    Conventions of the embedding.
    - Python values that arrive in the JSON body of a request are values of
      [pyval]; JSON floats are left out (no field of the program computes with
      them).  A [str] is modelled by its UTF-8 byte sequence, a surrogate that
      JSON left unpaired by the three bytes of its code point; whether
      [MIMEText] can encode a text is asked of the runtime ([Codec]).
    - The SMTP server is an oracle: for every attempt it tells which library
      call raises which exception.  Exceptions are the subclasses of Python's
      [Exception], split into the four classes the [except] clauses of
      [send_email] tell apart.
    - The calls made on [smtplib] and the pauses of [time.sleep] are recorded
      in a trace of events; calls to [logger] have no effect on control flow
      and are not recorded.
    - [ThreadPoolExecutor] and [as_completed] are modelled by an interleaving
      transition system whose scheduler is arbitrary. *)

From Stdlib Require Import ZArith Ascii.
From stdpp Require Import base strings list gmap pretty.

Local Open Scope Z_scope.
Set Warnings "-register-all".

(** ** Python values *)

Inductive pyval : Type :=
  | PyNone
  | PyBool (b : bool)
  | PyInt (z : Z)
  | PyStr (s : string)
  | PyList (l : list pyval)
  | PyDict (o : list (string * pyval)).

(** Truth value testing, as used by [all([...])]. *)
Definition truthy (v : pyval) : bool :=
  match v with
  | PyNone => false
  | PyBool b => b
  | PyInt z => negb (z =? 0)
  | PyStr s => negb (String.eqb s EmptyString)
  | PyList l => match l with [] => false | _ => true end
  | PyDict o => match o with [] => false | _ => true end
  end.

(** [type(v).__name__], which Python prints in its error messages. *)
Definition type_name (v : pyval) : string :=
  match v with
  | PyNone => "NoneType"
  | PyBool _ => "bool"
  | PyInt _ => "int"
  | PyStr _ => "str"
  | PyList _ => "list"
  | PyDict _ => "dict"
  end.

(** ** Exceptions

    The classes are listed from the most specific to the most general one;
    [Exception] stands for every exception that is not an [SMTPException]. *)

Inductive exn_class : Type :=
  | SMTPAuthenticationError
  | SMTPRecipientsRefused
  | SMTPException
  | Exception.

Record exn : Type := Raise { exn_cls : exn_class; exn_str : string }.

(** The classes after which [send_email] tries again. *)
Definition retryable (e : exn) : Prop :=
  exn_cls e = SMTPException ∨ exn_cls e = Exception.

(** ** Strings *)

Definition nl : string := String "010"%char EmptyString.
Definition dquote : string := String "034"%char EmptyString.

(** [s.replace(old, new)] for a pattern [old] of one character. *)
Fixpoint replace (old : ascii) (new : string) (s : string) : string :=
  match s with
  | EmptyString => EmptyString
  | String c r =>
      if Ascii.eqb c old then new +:+ replace old new r
      else String c (replace old new r)
  end.

(** [s.split(sep)] for a separator of one character: never empty. *)
Fixpoint split (sep : ascii) (s : string) : list string :=
  match s with
  | EmptyString => [EmptyString]
  | String c r =>
      if Ascii.eqb c sep then EmptyString :: split sep r
      else match split sep r with
           | [] => [String c EmptyString]
           | w :: ws => String c w :: ws
           end
  end.

(** [sep.join(ws)]. *)
Fixpoint join (sep : string) (ws : list string) : string :=
  match ws with
  | [] => EmptyString
  | [w] => w
  | w :: ws' => w +:+ sep +:+ join sep ws'
  end.


(** [sub in s]. *)
Fixpoint contains (sub s : string) : bool :=
  String.prefix sub s ||
  match s with
  | EmptyString => false
  | String _ r => contains sub r
  end.

(** ** The message *)

Record mime_part : Type := MIMEText {
  payload : string;
  subtype : string;
  charset : string
}.

Record message : Type := MIMEMultipart {
  multipart_subtype : string;
  msg_from : pyval;
  msg_to : pyval;
  msg_subject : pyval;
  parts : list mime_part
}.

(** The text of the f-string before and after [{html_body}]. *)
Definition html_head : string :=
  join nl [
    EmptyString;
    "<!DOCTYPE html>";
    "<html>";
    "<head>";
    "    <meta charset=" +:+ dquote +:+ "UTF-8" +:+ dquote +:+ ">";
    "    <style>";
    "        body {";
    "            font-family: Arial, sans-serif;";
    "            line-height: 1.6;";
    "            color: #333;";
    "            max-width: 600px;";
    "            margin: 0 auto;";
    "            padding: 20px;";
    "        }";
    "    </style>";
    "</head>";
    "<body>";
    "    "
  ].

Definition html_tail : string :=
  join nl [EmptyString; "</body>"; "</html>"; EmptyString].

Definition br : string := "<br>".

Definition html_body (body : string) : string :=
  replace "010"%char (br +:+ nl) body.

Definition html_content (body : string) : string :=
  html_head +:+ html_body body +:+ html_tail.

(** The message lines 40-74 make of a [str] body once both parts are
    encoded ([create_message] below is those lines). *)
Definition build_message (from_email to_email subject : pyval) (body : string)
  : message :=
  {| multipart_subtype := "alternative";
     msg_from := from_email;
     msg_to := to_email;
     msg_subject := subject;
     parts := [ MIMEText body "plain" "utf-8";
                MIMEText (html_content body) "html" "utf-8" ] |}.

(** ** The SMTP session *)

Inductive cert_reqs : Type := CERT_NONE | CERT_OPTIONAL | CERT_REQUIRED.

Record ssl_context : Type := SSLContext {
  check_hostname : bool;
  verify_mode : cert_reqs
}.

(** [ssl.create_default_context()]: both checks are on. *)
Definition create_default_context : ssl_context :=
  {| check_hostname := true; verify_mode := CERT_REQUIRED |}.

(** The calls [send_email] makes on [smtplib].  [SMTP_SSL] and [SMTP] are the
    constructors, which connect; [quit] is the [QUIT] that leaving a [with]
    block sends. *)
Inductive smtp_call : Type :=
  | SMTP_SSL (host : pyval) (port : Z) (context : ssl_context) (timeout : Z)
  | SMTP (host : pyval) (port : Z) (timeout : Z)
  | starttls (context : ssl_context)
  | login (user password : pyval)
  | send_message (msg : message)
  | quit.

Inductive event : Type :=
  | Call (c : smtp_call)
  | Sleep (seconds : Z).

(** What the server does to one call: [None] when the call returns, [Some e]
    when it raises [e]. *)
Definition server : Type := smtp_call → option exn.

(** A computation that may raise, with the events it has produced. *)
Definition Eff (A : Type) : Type := (exn + A) * list event.

Definition eff_ret {A} (a : A) : Eff A := (inr a, []).

Definition eff_raise {A} (e : exn) : Eff A := (inl e, []).

Definition eff_bind {A B} (m : Eff A) (k : A → Eff B) : Eff B :=
  match m with
  | (inl e, t) => (inl e, t)
  | (inr a, t) => let '(r, t') := k a in (r, t ++ t')
  end.

Notation "'do' x <- m ; k" := (eff_bind m (λ x, k))
  (at level 10, x name, m at level 100, k at level 200).
Notation "m ;; k" := (eff_bind m (λ _, k))
  (at level 100, k at level 200, right associativity).

Definition call (srv : server) (c : smtp_call) : Eff unit :=
  (match srv c with Some e => inl e | None => inr () end, [Call c]).

(** [with ctor(...) as server: body].  When the constructor raises, the block
    is not entered.  Otherwise [__exit__] sends [QUIT] whether or not the body
    raised, and an exception of [__exit__] replaces the one of the body. *)
Definition with_server (srv : server) (ctor : smtp_call) (body : Eff unit)
  : Eff unit :=
  call srv ctor ;;
  let '(r, t) := body in
  let '(q, tq) := call srv quit in
  (match q with inl e => inl e | inr _ => r end, t ++ tq).

(** [context.check_hostname = v]. *)
Definition set_check_hostname (v : bool) (c : ssl_context) : Eff ssl_context :=
  eff_ret {| check_hostname := v; verify_mode := verify_mode c |}.

(** [context.verify_mode = m]: refused while [check_hostname] is on. *)
Definition set_verify_mode (m : cert_reqs) (c : ssl_context) : Eff ssl_context :=
  match m, check_hostname c with
  | CERT_NONE, true =>
      eff_raise (Raise Exception
        "Cannot set verify_mode to CERT_NONE when check_hostname is enabled.")
  | _, _ => eff_ret {| check_hostname := check_hostname c; verify_mode := m |}
  end.

(** ** Encoding of the parts *)

(** [text.encode('utf-8')] of the Python runtime, which [MIMEText] applies to
    its text: [None] when it returns, the text of the [UnicodeEncodeError]
    when it raises.  A [str] read from JSON can hold a lone surrogate, which
    does not encode. *)
Class Codec : Type := utf8_encode_error : string → option string.

(** [MIMEText(text, subtype, 'utf-8')]. *)
Definition mime_text {codec : Codec} (text subtype : string) : Eff mime_part :=
  match utf8_encode_error text with
  | Some msg => eff_raise (Raise Exception msg)
  | None => eff_ret (MIMEText text subtype "utf-8")
  end.

(** Lines 40-74: the message with its two parts, or the exception of the
    first part that does not encode. *)
Definition create_message {codec : Codec} (from_email to_email subject : pyval)
    (body : string) : Eff message :=
  do text_part <- mime_text body "plain";
  do html_part <- mime_text (html_content body) "html";
  eff_ret {| multipart_subtype := "alternative";
             msg_from := from_email;
             msg_to := to_email;
             msg_subject := subject;
             parts := [text_part; html_part] |}.

(** ** EmailSender *)

Record EmailSender : Type := {
  smtp_server : pyval;
  smtp_port : Z;
  email : pyval;
  password : pyval;
  use_ssl : bool
}.

Definition max_retries : nat := 3.
Definition retry_delay : Z := 1.

(** [body.replace] exists on [str] only. *)
Definition as_str (body : pyval) : Eff string :=
  match body with
  | PyStr s => eff_ret s
  | v => eff_raise (Raise Exception
           ("'" +:+ type_name v +:+ "' object has no attribute 'replace'"))
  end.

(** The body of the [try] statement, lines 39-99, up to its [return]. *)
Definition try_body {codec : Codec} (self : EmailSender) (srv : server)
    (to_email subject body : pyval) : Eff unit :=
  do text <- as_str body;
  do message <- create_message (email self) to_email subject text;
  if decide (smtp_port self = 465) then
    do context <- eff_ret create_default_context;
    do context <- set_check_hostname false context;
    do context <- set_verify_mode CERT_NONE context;
    with_server srv (SMTP_SSL (smtp_server self) (smtp_port self) context 30)
      (call srv (login (email self) (password self)) ;;
       call srv (send_message message))
  else
    with_server srv (SMTP (smtp_server self) (smtp_port self) 30)
      ((if decide (smtp_port self = 587) then
          do context <- eff_ret create_default_context;
          do context <- set_check_hostname false context;
          do context <- set_verify_mode CERT_NONE context;
          call srv (starttls context)
        else eff_ret ()) ;;
       call srv (login (email self) (password self)) ;;
       call srv (send_message message)).

(** The dictionary [send_email] returns; [error] is absent on success. *)
Record outcome : Type := Outcome {
  success : bool;
  recipient : pyval;
  error : option string
}.

Definition sent (to_email : pyval) : outcome :=
  {| success := true; recipient := to_email; error := None |}.

Definition not_sent (to_email : pyval) (msg : string) : outcome :=
  {| success := false; recipient := to_email; error := Some msg |}.

(** The [for attempt in range(max_retries)] loop over the attempts that are
    left.  [env attempt] is the server as it behaves during that attempt. *)
Fixpoint send_loop {codec : Codec} (self : EmailSender) (env : nat → server)
    (to_email subject body : pyval) (attempts : list nat)
  : outcome * list event :=
  match attempts with
  | [] => (not_sent to_email "Max retries exceeded", [])
  | attempt :: rest =>
      let '(r, t) := try_body self (env attempt) to_email subject body in
      match r with
      | inr _ => (sent to_email, t)
      | inl e =>
          match exn_cls e with
          | SMTPAuthenticationError =>
              (not_sent to_email "Authentication failed. Check email/password", t)
          | SMTPRecipientsRefused =>
              (not_sent to_email "Recipient address rejected", t)
          | SMTPException =>
              if decide (attempt < max_retries - 1)%nat then
                let '(o, t') := send_loop self env to_email subject body rest in
                (o, t ++ Sleep retry_delay :: t')
              else (not_sent to_email ("SMTP error: " +:+ exn_str e), t)
          | Exception =>
              if decide (attempt < max_retries - 1)%nat then
                let '(o, t') := send_loop self env to_email subject body rest in
                (o, t ++ Sleep retry_delay :: t')
              else (not_sent to_email (exn_str e), t)
          end
      end
  end.

Definition send_email {codec : Codec} (self : EmailSender) (env : nat → server)
    (to_email subject body : pyval) : outcome * list event :=
  send_loop self env to_email subject body (seq 0 max_retries).

(** The attempts of a trace: its connections. *)
Definition is_connect (ev : event) : bool :=
  match ev with
  | Call (SMTP_SSL _ _ _ _) | Call (SMTP _ _ _) => true
  | _ => false
  end.

Definition attempts_made (t : list event) : nat :=
  length (filter (λ ev, is_connect ev = true) t).

Definition sleeps (t : list event) : list Z :=
  omap (λ ev, match ev with Sleep d => Some d | _ => None end) t.

Definition calls (t : list event) : list smtp_call :=
  omap (λ ev, match ev with Call c => Some c | _ => None end) t.

(** ** The worker pool

    [ThreadPoolExecutor(max_workers)] with every task submitted, and the loop
    over [as_completed] that appends the results.  A task waits in the queue,
    runs on a worker, finishes, and its result is then picked up by the loop.
    [as_completed] yields futures that are already done in no particular
    order, so any finished result may be picked up next. *)

Section pool.
Context {T R : Type}.
Variable work : T → R.

Record pool : Type := Pool {
  pool_max_workers : nat;
  pool_queue : list T;
  pool_running : list T;
  pool_finished : list R;
  pool_results : list R
}.

(** All of [tasks] submitted, none started. *)
Definition submit_all (max_workers : nat) (tasks : list T) : pool :=
  Pool max_workers tasks [] [] [].

Inductive pool_step : pool → pool → Prop :=
  | step_start c t q r f res :
      (length r < c)%nat →
      pool_step (Pool c (t :: q) r f res) (Pool c q (r ++ [t]) f res)
  | step_finish c q r1 t r2 f res :
      pool_step (Pool c q (r1 ++ t :: r2) f res)
                (Pool c q (r1 ++ r2) (f ++ [work t]) res)
  | step_collect c q r f1 x f2 res :
      pool_step (Pool c q r (f1 ++ x :: f2) res)
                (Pool c q r (f1 ++ f2) (res ++ [x])).

Definition can_start (p : pool) : bool :=
  match pool_queue p with
  | [] => false
  | _ :: _ => bool_decide (length (pool_running p) < pool_max_workers p)%nat
  end.

(** The number of steps that are possible in [p]. *)
Definition enabled (p : pool) : nat :=
  ((if can_start p then 1 else 0)
   + length (pool_running p) + length (pool_finished p))%nat.

(** The step number [choice] (modulo [enabled p]) among the possible ones:
    first the start of the head of the queue, then the end of a running
    task, then the pick-up of a finished result. *)
Definition pool_next (choice : nat) (p : pool) : option pool :=
  let 'Pool c q r f res := p in
  let s := if can_start p then 1%nat else 0%nat in
  if decide (enabled p = 0)%nat then None
  else
    let k := (choice `mod` enabled p)%nat in
    if decide (k < s)%nat then
      match q with
      | t :: q' => Some (Pool c q' (r ++ [t]) f res)
      | [] => None
      end
    else if decide (k - s < length r)%nat then
      t ← r !! (k - s)%nat;
      Some (Pool c q (delete (k - s)%nat r) (f ++ [work t]) res)
    else
      x ← f !! (k - s - length r)%nat;
      Some (Pool c q r (delete (k - s - length r)%nat f) (res ++ [x])).

(** The pool after at most [fuel] steps chosen by [sched], from step number
    [now] on. *)
Fixpoint run_pool (fuel : nat) (sched : nat → nat) (now : nat) (p : pool)
  : pool :=
  match fuel with
  | O => p
  | S fuel' =>
      match pool_next (sched now) p with
      | Some p' => run_pool fuel' sched (S now) p'
      | None => p
      end
  end.

(** Nothing is left to do. *)
Definition pool_done (p : pool) : Prop :=
  pool_queue p = [] ∧ pool_running p = [] ∧ pool_finished p = [].

(** The work that is left, in steps. *)
Definition pool_measure (p : pool) : nat :=
  (3 * length (pool_queue p) + 2 * length (pool_running p)
   + length (pool_finished p))%nat.

(** Every result the pool holds or will produce. *)
Definition pool_all (p : pool) : list R :=
  pool_results p ++ pool_finished p
    ++ (work <$> pool_running p) ++ (work <$> pool_queue p).
End pool.

Arguments pool : clear implicits.

(** ** The handler of /api/send-bulk *)

Record BatchReport : Type := {
  report_success : bool;
  total : Z;
  successful : Z;
  failed : Z;
  results : list outcome
}.

(** The JSON of a response: an error object [{success, error}] or a report. *)
Inductive http_body : Type :=
  | ErrorJson (ok : bool) (msg : string)
  | ReportJson (r : BatchReport).

Definition response : Type := http_body * Z.

(** [data.get(key, dflt)]. *)
Definition get (data : gmap string pyval) (key : string) (dflt : pyval) : pyval :=
  default dflt (data !! key).

Definition isinstance_list (v : pyval) : bool :=
  match v with PyList _ => true | _ => false end.

Definition items (v : pyval) : list pyval :=
  match v with PyList l => l | _ => [] end.

(** [sum(1 for r in results if r['success'])]. *)
Definition count_successful (rs : list outcome) : Z :=
  Z.of_nat (length (filter (λ r, success r = true) rs)).

(** Lines 198-209: the statistics and the report. *)
Definition batch_report (results : list outcome) : BatchReport :=
  let total := Z.of_nat (length results) in
  let successful := count_successful results in
  let failed := total - successful in
  {| report_success := true;
     total := total;
     successful := successful;
     failed := failed;
     results := results |}.

Section handlers.
Context {codec : Codec}.
(** [int(v)] of the Python runtime: the integer, or the text of the
    exception it raises. *)
Variable py_int : pyval → string + Z.
(** [os.cpu_count()], 0 when it is unknown. *)
Variable cpu_count : nat.

(** [EmailSender.__init__]. *)
Definition EmailSender_init (smtp_server smtp_port email password : pyval)
  : string + EmailSender :=
  match py_int smtp_port with
  | inl msg => inl msg
  | inr port =>
      inr {| smtp_server := smtp_server;
             smtp_port := port;
             email := email;
             password := password;
             use_ssl := bool_decide (port ∈ [465; 587]) |}
  end.

(** [ThreadPoolExecutor.__init__]: the size of the pool, or the text of the
    exception. *)
Definition ThreadPoolExecutor_init (max_workers : pyval) : string + nat :=
  match max_workers with
  | PyNone => inr (32 `min` ((if decide (cpu_count = 0)%nat then 1 else cpu_count) + 4))%nat
  | PyInt z =>
      if decide (z ≤ 0) then inl "max_workers must be greater than 0"
      else inr (Z.to_nat z)
  | PyBool b =>
      if b then inr 1%nat else inl "max_workers must be greater than 0"
  | v => inl ("'<=' not supported between instances of '"
              +:+ type_name v +:+ "' and 'int'")
  end.

(** The task of one recipient: [sender.send_email(recipient, subject, body)]
    against the server as it behaves for that task.  Every path through
    [send_email] ends in a [return], so [future.result()] is the dictionary
    the task returned and has no exception to raise again. *)
Definition send_task (sender : EmailSender) (env : nat → nat → server)
    (subject body : pyval) (t : nat * pyval) : outcome * list event :=
  send_email sender (env t.1) t.2 subject body.

(** [send_bulk_emails]: the response and the events of the sends, task by
    task in the order the results were picked up.  Leaving the [with] block
    waits for every task; the pool is run for three steps a task (start, end,
    pick-up), which [run_pool_done] shows to be all there are. *)
Definition send_bulk_emails (env : nat → nat → server) (sched : nat → nat)
    (data : gmap string pyval) : response * list event :=
  let from_email := get data "from" PyNone in
  let password := get data "password" PyNone in
  let recipients := get data "recipients" (PyList []) in
  let subject := get data "subject" PyNone in
  let body := get data "body" PyNone in
  let smtp_server := get data "smtp_server" (PyStr "smtp.hostinger.com") in
  let smtp_port := get data "smtp_port" (PyStr "465") in
  let max_workers := get data "max_workers" (PyInt 20) in
  if negb (forallb truthy [from_email; password; recipients; subject; body])
  then ((ErrorJson false "Missing required fields", 400), [])
  else if negb (isinstance_list recipients)
          || bool_decide (length (items recipients) = 0%nat)
  then ((ErrorJson false "Recipients must be a non-empty list", 400), [])
  else
    match EmailSender_init smtp_server smtp_port from_email password with
    | inl msg => ((ErrorJson false msg, 500), [])
    | inr sender =>
        match ThreadPoolExecutor_init max_workers with
        | inl msg => ((ErrorJson false msg, 500), [])
        | inr workers =>
            let tasks := imap pair (items recipients) in
            let executor :=
              run_pool (send_task sender env subject body)
                (3 * length tasks) sched 0 (submit_all workers tasks) in
            let results := fst <$> pool_results executor in
            ((ReportJson (batch_report results), 200),
             concat (snd <$> pool_results executor))
        end
    end.
End handlers.

(** ** A runtime for the examples

    [int(v)] on integers, booleans and strings of ASCII digits.  The builtin
    also accepts a sign, surrounding blanks, underscores and other digits;
    those strings are refused here.  The theorems are stated for an arbitrary
    [py_int]; this one only instantiates them. *)

Definition digit_of (c : ascii) : option Z :=
  let n := Z.of_nat (nat_of_ascii c) in
  if decide (48 ≤ n ≤ 57) then Some (n - 48) else None.

Fixpoint digits_value (acc : Z) (s : string) : option Z :=
  match s with
  | EmptyString => Some acc
  | String c r => d ← digit_of c; digits_value (10 * acc + d) r
  end.

Definition int_digits (v : pyval) : string + Z :=
  match v with
  | PyInt z => inr z
  | PyBool b => inr (if b then 1 else 0)
  | PyStr s =>
      match s, digits_value 0 s with
      | String _ _, Some z => inr z
      | _, _ => inl ("invalid literal for int() with base 10: '" +:+ s +:+ "'")
      end
  | v => inl ("int() argument must be a string, a bytes-like object or a real number, not '"
              +:+ type_name v +:+ "'")
  end.

(** The strict UTF-8 encoder: it refuses every surrogate, which stands in the
    text as the three bytes ED A0..BF 80..BF, and names in its error the
    first surrogate, its position counted in characters, and the surrogates
    that follow it without a gap. *)

Definition byte_of (c : ascii) : Z := Z.of_nat (nat_of_ascii c).

Definition is_continuation (c : ascii) : bool :=
  bool_decide (128 ≤ byte_of c ≤ 191).

(** The code point of the surrogate that [s] starts with. *)
Definition surrogate_at (s : string) : option Z :=
  match s with
  | String c (String d (String e _)) =>
      if bool_decide (byte_of c = 237 ∧ 160 ≤ byte_of d ≤ 191
                      ∧ 128 ≤ byte_of e ≤ 191)
      then Some (53248 + (byte_of d - 128) * 64 + (byte_of e - 128))
      else None
  | _ => None
  end.

(** [s[n:]]. *)
Fixpoint drop_chars (n : nat) (s : string) : string :=
  match n, s with
  | S n', String _ r => drop_chars n' r
  | _, _ => s
  end.

(** The first surrogate of [s]: its position when [pos] characters came
    before [s], its code point, and the text after it. *)
Fixpoint first_surrogate (pos : nat) (s : string) : option (nat * Z * string) :=
  match s with
  | EmptyString => None
  | String c r =>
      match surrogate_at s with
      | Some cp => Some (pos, cp, drop_chars 3 s)
      | None => first_surrogate (if is_continuation c then pos else S pos) r
      end
  end.

(** The number of surrogates that [s] starts with; [fuel] bounds it. *)
Fixpoint surrogate_run (fuel : nat) (s : string) : nat :=
  match fuel with
  | O => O
  | S fuel' =>
      match surrogate_at s with
      | Some _ => S (surrogate_run fuel' (drop_chars 3 s))
      | None => O
      end
  end.

Definition hex_digit (n : Z) : string :=
  String (ascii_of_nat (Z.to_nat (if decide (n < 10) then 48 + n else 87 + n)))
    EmptyString.

(** [hex(cp)] on four digits. *)
Definition hex4 (cp : Z) : string :=
  hex_digit ((cp / 4096) `mod` 16) +:+ hex_digit ((cp / 256) `mod` 16)
  +:+ hex_digit ((cp / 16) `mod` 16) +:+ hex_digit (cp `mod` 16).

Definition backslash : string := String "092"%char EmptyString.

Definition utf8_strict : Codec :=
  λ text,
    match first_surrogate 0 text with
    | None => None
    | Some (pos, cp, rest) =>
        match surrogate_run (String.length rest) rest with
        | O =>
            Some ("'utf-8' codec can't encode character '" +:+ backslash
                  +:+ "u" +:+ hex4 cp +:+ "' in position " +:+ pretty pos
                  +:+ ": surrogates not allowed")
        | S n =>
            Some ("'utf-8' codec can't encode characters in position "
                  +:+ pretty pos +:+ "-" +:+ pretty (pos + S n)%nat
                  +:+ ": surrogates not allowed")
        end
    end.

(** The [str] of the one character U+D800. *)
Definition lone_surrogate : string :=
  String "237"%char (String "160"%char (String "128"%char EmptyString)).

(** ** Vocabulary of the statements *)

(** The context both encrypted paths end up with. *)
Definition relaxed_context : ssl_context :=
  {| check_hostname := false; verify_mode := CERT_NONE |}.

(** The error text of the outcome after a last attempt that raised [e]. *)
Definition final_error (e : exn) : string :=
  match exn_cls e with
  | SMTPException => "SMTP error: " +:+ exn_str e
  | _ => exn_str e
  end.

(** The calls of a list that are made when a raising call ends the list. *)
Fixpoint until_raise (srv : server) (cs : list smtp_call) : list smtp_call :=
  match cs with
  | [] => []
  | c :: cs' => c :: match srv c with Some _ => [] | None => until_raise srv cs' end
  end.

(** The calls of a session that is planned as [plan], a constructor and the
    calls on the connection: the plan up to the first call that raises, and a
    [quit] once the connection was open. *)
Definition performed (srv : server) (plan : list smtp_call) : list smtp_call :=
  match plan with
  | [] => []
  | ctor :: rest =>
      ctor :: match srv ctor with
              | Some _ => []
              | None => until_raise srv rest ++ [quit]
              end
  end.

(** Both parts of the message for the body [text] encode. *)
Definition encodes {codec : Codec} (text : string) : Prop :=
  utf8_encode_error text = None
  ∧ utf8_encode_error (html_content text) = None.

(** An attempt of [send_email] raises [e]. *)
Definition attempt_raises {codec : Codec} (self : EmailSender) (srv : server)
    (to_email subject body : pyval) (e : exn) : Prop :=
  (try_body self srv to_email subject body).1 = inl e.

(** An attempt of [send_email] reaches its [return]. *)
Definition attempt_succeeds {codec : Codec} (self : EmailSender) (srv : server)
    (to_email subject body : pyval) : Prop :=
  (try_body self srv to_email subject body).1 = inr ().

(** The sender [send_bulk_emails] builds from a request whose port converts
    to [port]. *)
Definition request_sender (data : gmap string pyval) (port : Z) : EmailSender :=
  {| smtp_server := get data "smtp_server" (PyStr "smtp.hostinger.com");
     smtp_port := port;
     email := get data "from" PyNone;
     password := get data "password" PyNone;
     use_ssl := bool_decide (port ∈ [465; 587]) |}.

(** The request is a BulkSendRequest of the data model, with recipients [rs]
    and port [port]: sender, secret, subject and body are not empty, the
    recipients are a list that is not empty, the port converts to an integer,
    and the number of workers, 20 when the request has none, is a positive
    integer. *)
Definition BulkSendRequest (py_int : pyval → string + Z)
    (data : gmap string pyval) (rs : list pyval) (port : Z) : Prop :=
  truthy (get data "from" PyNone) = true
  ∧ truthy (get data "password" PyNone) = true
  ∧ truthy (get data "subject" PyNone) = true
  ∧ truthy (get data "body" PyNone) = true
  ∧ get data "recipients" (PyList []) = PyList rs
  ∧ rs ≠ []
  ∧ py_int (get data "smtp_port" (PyStr "465")) = inr port
  ∧ ∃ w, get data "max_workers" (PyInt 20) = PyInt w ∧ 0 < w.

(** The outcome of the recipient [r] at position [i] of a request. *)
Definition outcome_of {codec : Codec} (data : gmap string pyval) (port : Z)
    (env : nat → nat → server) (i : nat) (r : pyval) : outcome :=
  (send_email (request_sender data port) (env i) r
     (get data "subject" PyNone) (get data "body" PyNone)).1.

(** [len([r for r in results if not r['success']])]. *)
Definition count_failed (rs : list outcome) : Z :=
  Z.of_nat (length (filter (λ r, success r = false) rs)).

(** The keys [send_bulk_emails] requires. *)
Definition required_fields : list string :=
  ["from"; "password"; "recipients"; "subject"; "body"].

(** ** Inputs of the examples *)

Definition server_ok : server := λ _, None.

Definition login_raises (e : exn) : server :=
  λ c, match c with login _ _ => Some e | _ => None end.

Definition example_sender : EmailSender :=
  {| smtp_server := PyStr "smtp.hostinger.com";
     smtp_port := 465;
     email := PyStr "ann@example.org";
     password := PyStr "secret";
     use_ssl := true |}.

(** Three recipients, one of them twice; port and workers are left out. *)
Definition example_request : gmap string pyval :=
  list_to_map
    [ ("from", PyStr "ann@example.org");
      ("password", PyStr "secret");
      ("recipients",
       PyList [PyStr "bob@example.org"; PyStr "eve@example.org";
               PyStr "bob@example.org"]);
      ("subject", PyStr "Hello");
      ("body", PyStr "line1") ].

(** The server refuses every login with a temporary error. *)
Definition env_busy : nat → server :=
  λ _, login_raises (Raise SMTPException "(421, b'busy')").

(** The server refuses the logins of the first two attempts. *)
Definition env_third : nat → server :=
  λ a, if decide (a < 2)%nat then login_raises (Raise SMTPException "(421, b'busy')")
       else server_ok.

(** The server rejects the credentials. *)
Definition env_auth : nat → server :=
  λ _, login_raises (Raise SMTPAuthenticationError "(535, b'secret rejected')").

(** The second recipient meets a server that always fails; the others are
    served. *)
Definition env_second_fails : nat → nat → server :=
  λ i, if decide (i = 1)%nat then env_busy else λ _, server_ok.

(** A scheduler. *)
Definition example_sched : nat → nat := λ n, (7 * n + 3)%nat.

(** ** The handler of /api/send-email *)

(** The JSON of its response: an error object or the dictionary of
    [send_email]. *)
Inductive single_body : Type :=
  | SingleError (ok : bool) (msg : string)
  | OutcomeJson (o : outcome).

Section single_handler.
Context {codec : Codec}.
(** [int(v)] of the Python runtime, as for the bulk handler. *)
Variable py_int : pyval → string + Z.

(** [send_single_email]: the response and the events of the send. *)
Definition send_single_email (env : nat → server) (data : gmap string pyval)
  : (single_body * Z) * list event :=
  let from_email := get data "from" PyNone in
  let password := get data "password" PyNone in
  let to_email := get data "to" PyNone in
  let subject := get data "subject" PyNone in
  let body := get data "body" PyNone in
  let smtp_server := get data "smtp_server" (PyStr "smtp.hostinger.com") in
  let smtp_port := get data "smtp_port" (PyStr "465") in
  if negb (forallb truthy [from_email; password; to_email; subject; body])
  then ((SingleError false "Missing required fields", 400), [])
  else
    match EmailSender_init py_int smtp_server smtp_port from_email password with
    | inl msg => ((SingleError false msg, 500), [])
    | inr sender =>
        let '(result, t) := send_email sender env to_email subject body in
        ((OutcomeJson result, 200), t)
    end.
End single_handler.

(** ** More vocabulary *)

(** The events of the attempts [pre] when each of them is followed by the
    pause before the next attempt. *)
Definition retry_trace {codec : Codec} (self : EmailSender) (env : nat → server)
    (to_email subject body : pyval) (pre : list nat) : list event :=
  concat ((λ a, (try_body self (env a) to_email subject body).2
                ++ [Sleep retry_delay]) <$> pre).

(** The transmissions of a trace: its calls of [send_message]. *)
Definition is_delivery (ev : event) : bool :=
  match ev with
  | Call (send_message _) => true
  | _ => false
  end.

Definition deliveries (t : list event) : nat :=
  length (filter (λ ev, is_delivery ev = true) t).

(** The keys [send_single_email] requires. *)
Definition single_required_fields : list string :=
  ["from"; "password"; "to"; "subject"; "body"].

(** The server takes the message and then answers [QUIT] with an error. *)
Definition env_quit_fails : nat → server :=
  λ _ c, match c with
         | quit => Some (Raise SMTPException "(451, b'try later')")
         | _ => None
         end.

(** The server refuses the recipient after one busy answer. *)
Definition env_busy_then_refused : nat → server :=
  λ a, if decide (a < 1)%nat
       then login_raises (Raise SMTPException "(421, b'busy')")
       else (λ c, match c with
                  | send_message _ =>
                      Some (Raise SMTPRecipientsRefused "{'bob@example.org': (550, b'no')}")
                  | _ => None
                  end).

(** The credentials are rejected after one busy answer. *)
Definition env_busy_then_auth : nat → server :=
  λ a, if decide (a < 1)%nat
       then login_raises (Raise SMTPException "(421, b'busy')")
       else login_raises (Raise SMTPAuthenticationError "(535, b'rejected')").

(** The first login is refused, the second attempt delivers. *)
Definition env_second_ok : nat → server :=
  λ a, if decide (a < 1)%nat
       then login_raises (Raise SMTPException "(421, b'busy')")
       else server_ok.

(** A request for one recipient. *)
Definition example_single : gmap string pyval :=
  list_to_map
    [ ("from", PyStr "ann@example.org");
      ("password", PyStr "secret");
      ("to", PyStr "bob@example.org");
      ("subject", PyStr "Hello");
      ("body", PyStr "line1") ].

(** The bulk request for that one recipient. *)
Definition example_bulk_one : gmap string pyval :=
  list_to_map
    [ ("from", PyStr "ann@example.org");
      ("password", PyStr "secret");
      ("recipients", PyList [PyStr "bob@example.org"]);
      ("subject", PyStr "Hello");
      ("body", PyStr "line1") ].

(** * Properties *)

(** ** Message construction *)

Section message_builder.
Implicit Types (s : string) (c : ascii).





End message_builder.


(** The example of the specification: a break between the two lines. *)
Example message_builder_two_lines :
  html_body ("line1" +:+ nl +:+ "line2") = "line1<br>" +:+ nl +:+ "line2"
  ∧ contains ("line1<br>" +:+ nl +:+ "line2")
      (html_content ("line1" +:+ nl +:+ "line2")) = true.
Proof. split; vm_compute; reflexivity. Qed.

(** ** One attempt *)

Section attempt.
Context {codec : Codec}.
Variables (self : EmailSender) (srv : server) (to_email subject : pyval).

Lemma attempts_made_app t1 t2 :
  attempts_made (t1 ++ t2) = (attempts_made t1 + attempts_made t2)%nat.
Proof. unfold attempts_made. by rewrite filter_app, length_app. Qed.

Lemma attempts_made_sleep d t : attempts_made (Sleep d :: t) = attempts_made t.
Proof. reflexivity. Qed.

Lemma sleeps_app t1 t2 : sleeps (t1 ++ t2) = sleeps t1 ++ sleeps t2.
Proof. unfold sleeps. apply omap_app. Qed.

Lemma sleeps_cons_sleep d t : sleeps (Sleep d :: t) = d :: sleeps t.
Proof. reflexivity. Qed.

(** When its parts encode, the message is built without an event. *)
Lemma create_message_encodes text :
  encodes text →
  create_message (email self) to_email subject text
  = (inr (build_message (email self) to_email subject text), []).
Proof.
  intros [Hplain Hhtml]. unfold create_message, mime_text.
  by rewrite Hplain, Hhtml.
Qed.

(** When a part does not encode, nothing is built and no event happens. *)
Lemma create_message_raises text :
  ¬ encodes text →
  ∃ msg, create_message (email self) to_email subject text
         = (inl (Raise Exception msg), []).
Proof.
  intros Hno. unfold encodes in Hno. unfold create_message, mime_text.
  destruct (utf8_encode_error text) as [msg|] eqn:Hplain; [by eexists|].
  destruct (utf8_encode_error (html_content text)) as [msg|] eqn:Hhtml;
    [by eexists|].
  by destruct Hno.
Qed.

Lemma encodes_dec text : encodes text ∨ ¬ encodes text.
Proof.
  unfold encodes.
  destruct (utf8_encode_error text), (utf8_encode_error (html_content text));
    first [by left | right; by intros [? ?]].
Qed.

(** With a [str] body that encodes every attempt opens exactly one connection
    and does not sleep. *)
Lemma try_body_str text :
  encodes text →
  let t := (try_body self srv to_email subject (PyStr text)).2 in
  attempts_made t = 1%nat ∧ sleeps t = [].
Proof.
  intros Henc. unfold try_body, as_str. cbn [eff_bind eff_ret].
  rewrite (create_message_encodes text Henc).
  unfold with_server, call, eff_bind, eff_ret; simpl.
  repeat case_decide; simpl; repeat case_match; simplify_eq/=; done.
Qed.

(** With a [str] body that does not encode an attempt raises before any
    call is made. *)
Lemma try_body_not_encoded text :
  ¬ encodes text →
  ∃ msg, try_body self srv to_email subject (PyStr text)
         = (inl (Raise Exception msg), []).
Proof.
  intros Hno. destruct (create_message_raises text Hno) as [msg Hmsg].
  exists msg. unfold try_body, as_str. cbn [eff_bind eff_ret].
  by rewrite Hmsg.
Qed.

(** A body that is not a [str] raises before any call is made. *)
Lemma try_body_not_str body :
  (∀ text, body ≠ PyStr text) →
  ∃ msg, try_body self srv to_email subject body = (inl (Raise Exception msg), []).
Proof.
  intros Hb. destruct body; try (by eexists); by destruct (Hb s).
Qed.

Lemma attempt_succeeds_str body :
  attempt_succeeds self srv to_email subject body → ∃ text, body = PyStr text.
Proof.
  unfold attempt_succeeds. intros H. destruct body; try done. by eexists.
Qed.

Lemma attempt_raises_smtp_str body e :
  attempt_raises self srv to_email subject body e →
  exn_cls e ≠ Exception → ∃ text, body = PyStr text.
Proof.
  unfold attempt_raises. intros H Hc.
  destruct body; try (by eexists); simpl in H; by simplify_eq.
Qed.
(** An attempt that returns, or that raises an error of [smtplib], has built
    its message. *)
Lemma attempt_succeeds_encodes text :
  attempt_succeeds self srv to_email subject (PyStr text) → encodes text.
Proof.
  unfold attempt_succeeds. intros H.
  destruct (encodes_dec text) as [|Hno]; [done|].
  destruct (try_body_not_encoded text Hno) as [msg Hmsg].
  by rewrite Hmsg in H.
Qed.

Lemma attempt_raises_smtp_encodes text e :
  attempt_raises self srv to_email subject (PyStr text) e →
  exn_cls e ≠ Exception → encodes text.
Proof.
  unfold attempt_raises. intros H Hc.
  destruct (encodes_dec text) as [|Hno]; [done|].
  destruct (try_body_not_encoded text Hno) as [msg Hmsg].
  rewrite Hmsg in H. simpl in H. by simplify_eq.
Qed.
End attempt.

(** ** The retry loop *)

Section retry.
Context {codec : Codec}.
Variables (self : EmailSender) (env : nat → server) (to_email subject body : pyval).

Local Abbreviation attempt_of a := (try_body self (env a) to_email subject body).
Local Abbreviation loop := (send_loop self env to_email subject body).

Lemma send_loop_return a rest :
  attempt_succeeds self (env a) to_email subject body →
  loop (a :: rest) = (sent to_email, (attempt_of a).2).
Proof.
  unfold attempt_succeeds. simpl. destruct (attempt_of a) as [r t]; simpl.
  by intros ->.
Qed.

Lemma send_loop_authentication a rest e :
  attempt_raises self (env a) to_email subject body e →
  exn_cls e = SMTPAuthenticationError →
  loop (a :: rest)
    = (not_sent to_email "Authentication failed. Check email/password",
       (attempt_of a).2).
Proof.
  unfold attempt_raises. simpl. destruct (attempt_of a) as [r t]; simpl.
  by intros -> ->.
Qed.

Lemma send_loop_refused a rest e :
  attempt_raises self (env a) to_email subject body e →
  exn_cls e = SMTPRecipientsRefused →
  loop (a :: rest)
    = (not_sent to_email "Recipient address rejected", (attempt_of a).2).
Proof.
  unfold attempt_raises. simpl. destruct (attempt_of a) as [r t]; simpl.
  by intros -> ->.
Qed.

Lemma send_loop_retry a rest e :
  attempt_raises self (env a) to_email subject body e →
  retryable e → (a < max_retries - 1)%nat →
  loop (a :: rest)
    = ((loop rest).1, (attempt_of a).2 ++ Sleep retry_delay :: (loop rest).2).
Proof.
  unfold attempt_raises. simpl. destruct (attempt_of a) as [r t]; simpl.
  intros -> [-> | ->] Ha; rewrite decide_True by done;
    by destruct (loop rest).
Qed.

Lemma send_loop_last a rest e :
  attempt_raises self (env a) to_email subject body e →
  retryable e → ¬ (a < max_retries - 1)%nat →
  loop (a :: rest) = (not_sent to_email (final_error e), (attempt_of a).2).
Proof.
  unfold attempt_raises, final_error. simpl.
  destruct (attempt_of a) as [r t]; simpl.
  by intros -> [-> | ->] Ha; rewrite decide_False by done.
Qed.

(** Whatever the attempts do, the outcome is for the recipient asked for,
    and it carries an error text exactly when it is a failure. *)
Lemma send_loop_outcome attempts :
  let o := (loop attempts).1 in
  recipient o = to_email ∧ (success o = false ↔ is_Some (error o)).
Proof.
  induction attempts as [|a rest IH]; simpl.
  { split; [done|]. split; [by eexists|done]. }
  destruct (attempt_of a) as [[e|u] t]; simpl.
  - destruct (exn_cls e); simpl;
      try (split; [done|]; split; [by eexists|done]);
      case_decide; simpl;
      try (split; [done|]; split; [by eexists|done]);
      by destruct (loop rest).
  - split; [done|]. split; [done|]. by intros [? ?].
Qed.

(** When every attempt raises, the outcome is a failure. *)
Lemma send_loop_all_raise attempts :
  (∀ a, a ∈ attempts → ∃ e, attempt_raises self (env a) to_email subject body e) →
  success (loop attempts).1 = false.
Proof.
  induction attempts as [|a rest IH]; intros Hall; simpl; [done|].
  destruct (Hall a) as [e He]; [by left|].
  unfold attempt_raises in He.
  destruct (attempt_of a) as [r t]; simpl in *; subst r.
  assert (success (loop rest).1 = false) as Hrest.
  { apply IH. intros b Hb. apply Hall. by right. }
  destruct (exn_cls e); try done; case_decide; try done;
    by destruct (loop rest).
Qed.
End retry.

(** C2, as the code has it.  When the message is built and the transport
    call of every one of the three attempts raises a retryable error,
    [send_email] connects exactly
    three times, sleeps [retry_delay] twice, and returns one failed outcome
    for the recipient whose error text is made from the exception of the
    last attempt: its text after "SMTP error: " for an [SMTPException], its
    text alone otherwise. *)
Theorem retries_exhausted_last_error {codec : Codec}
    (self : EmailSender) (env : nat → server) (to_email subject : pyval)
    (text : string) (e0 e1 e2 : exn) :
  encodes text →
  attempt_raises self (env 0%nat) to_email subject (PyStr text) e0 → retryable e0 →
  attempt_raises self (env 1%nat) to_email subject (PyStr text) e1 → retryable e1 →
  attempt_raises self (env 2%nat) to_email subject (PyStr text) e2 → retryable e2 →
  let '(o, t) := send_email self env to_email subject (PyStr text) in
  o = not_sent to_email (final_error e2)
  ∧ attempts_made t = 3%nat
  ∧ sleeps t = [retry_delay; retry_delay].
Proof.
  intros Henc H0 R0 H1 R1 H2 R2. unfold send_email. simpl seq.
  rewrite (send_loop_retry _ _ _ _ _ _ _ _ H0 R0) by (unfold max_retries; lia).
  rewrite (send_loop_retry _ _ _ _ _ _ _ _ H1 R1) by (unfold max_retries; lia).
  rewrite (send_loop_last _ _ _ _ _ _ _ _ H2 R2) by (unfold max_retries; lia).
  cbn [fst snd]. split; [done|].
  pose proof (try_body_str self (env 0%nat) to_email subject text Henc) as [A0 S0].
  pose proof (try_body_str self (env 1%nat) to_email subject text Henc) as [A1 S1].
  pose proof (try_body_str self (env 2%nat) to_email subject text Henc) as [A2 S2].
  cbn zeta in *. split.
  - rewrite !attempts_made_app, !attempts_made_sleep, !attempts_made_app,
      !attempts_made_sleep. lia.
  - rewrite sleeps_app, !sleeps_cons_sleep, sleeps_app, !sleeps_cons_sleep.
    by rewrite S0, S1, S2.
Qed.

(** C4.  When the first attempt raises [SMTPAuthenticationError], whatever
    text the server put in it, [send_email] has connected once, does not
    sleep or try again, and returns the failed outcome with the fixed text. *)
Theorem authentication_failure_not_retried {codec : Codec}
    (self : EmailSender) (env : nat → server) (to_email subject body : pyval)
    (e : exn) :
  attempt_raises self (env 0%nat) to_email subject body e →
  exn_cls e = SMTPAuthenticationError →
  let '(o, t) := send_email self env to_email subject body in
  o = not_sent to_email "Authentication failed. Check email/password"
  ∧ t = (try_body self (env 0%nat) to_email subject body).2
  ∧ attempts_made t = 1%nat
  ∧ sleeps t = [].
Proof.
  intros H Hc. unfold send_email. simpl seq.
  rewrite (send_loop_authentication _ _ _ _ _ _ _ _ H Hc).
  split; [done|]. split; [done|].
  destruct (attempt_raises_smtp_str _ _ _ _ _ _ H) as [text ->];
    [by rewrite Hc|].
  apply try_body_str.
  apply (attempt_raises_smtp_encodes _ _ _ _ _ _ H). by rewrite Hc.
Qed.

(** C5.  When the first two attempts raise a retryable error and the third
    reaches its [return], [send_email] returns the successful outcome; its
    trace is the three attempts with a sleep of [retry_delay = 1] after the
    first and after the second, so it has connected three times and both
    pauses are the same. *)
Theorem third_attempt_succeeds {codec : Codec}
    (self : EmailSender) (env : nat → server) (to_email subject body : pyval)
    (e0 e1 : exn) :
  attempt_raises self (env 0%nat) to_email subject body e0 → retryable e0 →
  attempt_raises self (env 1%nat) to_email subject body e1 → retryable e1 →
  attempt_succeeds self (env 2%nat) to_email subject body →
  let '(o, t) := send_email self env to_email subject body in
  o = sent to_email
  ∧ t = (try_body self (env 0%nat) to_email subject body).2
        ++ Sleep 1 :: (try_body self (env 1%nat) to_email subject body).2
        ++ Sleep 1 :: (try_body self (env 2%nat) to_email subject body).2
  ∧ attempts_made t = 3%nat
  ∧ sleeps t = [1; 1].
Proof.
  intros H0 R0 H1 R1 H2. unfold send_email. simpl seq.
  rewrite (send_loop_retry _ _ _ _ _ _ _ _ H0 R0) by (unfold max_retries; lia).
  rewrite (send_loop_retry _ _ _ _ _ _ _ _ H1 R1) by (unfold max_retries; lia).
  rewrite (send_loop_return _ _ _ _ _ _ _ H2).
  cbn [fst snd]. split; [done|]. split; [done|].
  destruct (attempt_succeeds_str _ _ _ _ _ H2) as [text ->].
  pose proof (attempt_succeeds_encodes _ _ _ _ _ H2) as Henc.
  pose proof (try_body_str self (env 0%nat) to_email subject text Henc) as [A0 S0].
  pose proof (try_body_str self (env 1%nat) to_email subject text Henc) as [A1 S1].
  pose proof (try_body_str self (env 2%nat) to_email subject text Henc) as [A2 S2].
  cbn zeta in *. split.
  - rewrite !attempts_made_app, !attempts_made_sleep, !attempts_made_app,
      !attempts_made_sleep. lia.
  - rewrite sleeps_app, !sleeps_cons_sleep, sleeps_app, !sleeps_cons_sleep.
    by rewrite S0, S1, S2.
Qed.

(** ** Choice of the transport *)

(** C7.  The calls of one attempt whose message is built are decided by
    [smtp_port] alone.  On port
    465 the session is opened by [SMTP_SSL], which encrypts from the start,
    then logs in and sends.  On port 587 it is opened by the plain [SMTP],
    upgraded by [starttls], and only then logs in and sends.  On every other
    port it is opened by the plain [SMTP] and logs in and sends with no
    upgrade.  Both contexts have [check_hostname = False] and
    [verify_mode = CERT_NONE].  The timeout is 30 on every path, the session
    stops at the first call that raises, and a [quit] follows once the
    connection was open. *)
Theorem transport_selected_by_port {codec : Codec}
    (self : EmailSender) (srv : server) (to_email subject : pyval) (text : string) :
  encodes text →
  let cs := calls (try_body self srv to_email subject (PyStr text)).2 in
  let auth := login (email self) (password self) in
  let send := send_message (build_message (email self) to_email subject text) in
  (smtp_port self = 465 →
     cs = performed srv
            [SMTP_SSL (smtp_server self) 465
               {| check_hostname := false; verify_mode := CERT_NONE |} 30;
             auth; send])
  ∧ (smtp_port self = 587 →
     cs = performed srv
            [SMTP (smtp_server self) 587 30;
             starttls {| check_hostname := false; verify_mode := CERT_NONE |};
             auth; send])
  ∧ (smtp_port self ≠ 465 → smtp_port self ≠ 587 →
     cs = performed srv [SMTP (smtp_server self) (smtp_port self) 30; auth; send]).
Proof.
  intros Henc. unfold try_body, as_str. cbn [eff_bind eff_ret].
  rewrite (create_message_encodes self to_email subject text Henc).
  destruct self as [host port user pw ssl].
  unfold with_server, call, eff_bind, eff_ret, performed.
  cbn [until_raise smtp_port smtp_server email password].
  split_and!; intros; subst; repeat case_decide; try done; simpl;
    repeat (case_match; simplify_eq/=); done.
Qed.

(** ** The worker pool *)

Section pool_facts.
Context {T R : Type} (work : T → R).
Implicit Types (p : pool T R).

Local Abbreviation step := (pool_step work).

(** The scheduler only takes steps of the transition system. *)
Lemma pool_next_step choice p p' :
  pool_next work choice p = Some p' → step p p'.
Proof.
  destruct p as [c q r f res]. unfold pool_next.
  case_decide as He; [done|].
  set (k := (choice `mod` enabled _)%nat). clearbody k.
  destruct (can_start _) eqn:Hcs.
  - destruct (decide (k < 1)%nat) as [Hs|Hs].
    + destruct q as [|t q']; [done|]. intros [= <-].
      apply bool_decide_eq_true_1 in Hcs. by constructor.
    + destruct (decide (k - 1 < length r)%nat) as [Hr|Hr].
      * destruct (r !! _) as [t|] eqn:Ht; simpl; [|done]. intros [= <-].
        rewrite <-(take_drop_middle r _ t Ht) at 1.
        rewrite delete_take_drop. constructor.
      * destruct (f !! _) as [x|] eqn:Hx; simpl; [|done]. intros [= <-].
        rewrite <-(take_drop_middle f _ x Hx) at 1.
        rewrite delete_take_drop. constructor.
  - rewrite decide_False by lia.
    destruct (decide (k - 0 < length r)%nat) as [Hr|Hr].
    + destruct (r !! _) as [t|] eqn:Ht; simpl; [|done]. intros [= <-].
      rewrite <-(take_drop_middle r _ t Ht) at 1.
      rewrite delete_take_drop. constructor.
    + destruct (f !! _) as [x|] eqn:Hx; simpl; [|done]. intros [= <-].
      rewrite <-(take_drop_middle f _ x Hx) at 1.
      rewrite delete_take_drop. constructor.
Qed.

Lemma pool_step_max_workers p p' :
  step p p' → pool_max_workers p' = pool_max_workers p.
Proof. by destruct 1. Qed.

(** No step loses or duplicates a result. *)
Lemma pool_step_all p p' : step p p' → pool_all work p' ≡ₚ pool_all work p.
Proof.
  destruct 1; unfold pool_all; simpl.
  - by rewrite fmap_app, <-(app_assoc (work <$> r)).
  - rewrite !fmap_app, fmap_cons, <-(app_assoc f), <-!(app_assoc (work <$> r1)).
    simpl. do 2 f_equiv. apply Permutation_middle.
  - rewrite <-!(app_assoc f1), <-(app_assoc res). simpl.
    f_equiv. by rewrite <-!Permutation_middle.
Qed.

(** Every step does one unit of the work that is left. *)
Lemma pool_step_measure p p' :
  step p p' → S (pool_measure p') = pool_measure p.
Proof.
  destruct 1; unfold pool_measure; simpl; rewrite ?length_app; simpl; lia.
Qed.

Lemma pool_steps_all p p' : rtc step p p' → pool_all work p' ≡ₚ pool_all work p.
Proof.
  induction 1 as [|p1 p2 p3 H12 _ IH]; [done|].
  by rewrite IH, (pool_step_all _ _ H12).
Qed.

(** With a worker at hand, a pool where no step is possible is done. *)
Lemma enabled_0_done p :
  (0 < pool_max_workers p)%nat → enabled p = 0%nat → pool_done p.
Proof.
  destruct p as [c q r f res]. unfold enabled, can_start, pool_done; simpl.
  intros Hc He.
  destruct r; [|simpl in He; lia]. destruct f; [|simpl in He; lia].
  destruct q; [done|]. simpl in He.
  rewrite bool_decide_eq_true_2 in He by done. lia.
Qed.

(** The scheduler is never stuck while a step is possible. *)
Lemma pool_next_enabled choice p :
  enabled p ≠ 0%nat → is_Some (pool_next work choice p).
Proof.
  destruct p as [c q r f res]. intros He. unfold pool_next.
  rewrite decide_False by done.
  pose proof (Nat.mod_upper_bound choice _ He) as Hk.
  set (k := (choice `mod` enabled _)%nat) in *. clearbody k.
  unfold enabled in Hk.
  destruct (can_start _) eqn:Hcs; simpl in Hk.
  - destruct (decide (k < 1)%nat) as [Hs|Hs].
    + destruct q; [done | by eexists].
    + destruct (decide (k - 1 < length r)%nat) as [Hr|Hr].
      * destruct (lookup_lt_is_Some_2 r _ Hr) as [t ->]. by eexists.
      * assert (k - 1 - length r < length f)%nat as Hf by lia.
        destruct (lookup_lt_is_Some_2 f _ Hf) as [x ->]. by eexists.
  - rewrite decide_False by lia.
    destruct (decide (k - 0 < length r)%nat) as [Hr|Hr].
    + destruct (lookup_lt_is_Some_2 r _ Hr) as [t ->]. by eexists.
    + assert (k - 0 - length r < length f)%nat as Hf by lia.
      destruct (lookup_lt_is_Some_2 f _ Hf) as [x ->]. by eexists.
Qed.

(** Every state the scheduler goes through is a state of the transition
    system. *)
Lemma run_pool_steps fuel sched now p :
  rtc step p (run_pool work fuel sched now p).
Proof.
  revert now p. induction fuel as [|fuel IH]; intros now p; simpl; [done|].
  destruct (pool_next work (sched now) p) as [p'|] eqn:Hn; [|done].
  eapply rtc_l; [by eapply pool_next_step | apply IH].
Qed.

(** With fuel for the work that is left, the scheduler ends in a pool that
    is done. *)
Lemma run_pool_done fuel sched now p :
  (0 < pool_max_workers p)%nat → (pool_measure p ≤ fuel)%nat →
  pool_done (run_pool work fuel sched now p).
Proof.
  revert now p. induction fuel as [|fuel IH]; intros now p Hc Hm; simpl.
  - destruct p as [c [|? q] [|? r] [|? f] res];
      unfold pool_measure in Hm; simpl in Hm; try lia. done.
  - destruct (pool_next work (sched now) p) as [p'|] eqn:Hn.
    + apply pool_next_step in Hn.
      apply IH.
      * by rewrite (pool_step_max_workers _ _ Hn).
      * pose proof (pool_step_measure _ _ Hn). lia.
    + destruct (decide (enabled p = 0%nat)) as [He|He].
      * by apply enabled_0_done.
      * destruct (pool_next_enabled (sched now) p He) as [? ?]. congruence.
Qed.

(** The results of a run: those of all the tasks, in some order. *)
Lemma run_pool_results sched workers tasks :
  (0 < workers)%nat →
  pool_results (run_pool work (3 * length tasks) sched 0 (submit_all workers tasks))
    ≡ₚ work <$> tasks.
Proof.
  intros Hw.
  set (p := run_pool _ _ _ _ _).
  assert (pool_done p) as (Hq & Hr & Hf).
  { apply run_pool_done; [done|]. unfold pool_measure; simpl. lia. }
  pose proof (pool_steps_all _ _ (run_pool_steps (3 * length tasks) sched 0
                                    (submit_all workers tasks))) as Hall.
  fold p in Hall. unfold pool_all in Hall. rewrite Hq, Hr, Hf in Hall.
  simpl in Hall. by rewrite !app_nil_r in Hall.
Qed.
End pool_facts.

(** ** The bulk handler *)

Section bulk.
Context {codec : Codec}.
Variables (py_int : pyval → string + Z) (cpu_count : nat).
Variables (env : nat → nat → server) (sched : nat → nat).

Local Abbreviation handle := (send_bulk_emails py_int cpu_count env sched).

Lemma count_split (os : list outcome) :
  Z.of_nat (length os) = count_successful os + count_failed os.
Proof.
  unfold count_successful, count_failed.
  induction os as [|o os IH]; [done|].
  rewrite !filter_cons. destruct (success o); simpl;
    repeat case_decide; try done; simpl length; lia.
Qed.

(** The report of a request that is a BulkSendRequest: the outcomes of
    running every task, in the order the scheduler made. *)
Lemma send_bulk_emails_accepted data rs port :
  BulkSendRequest py_int data rs port →
  ∃ out : list (outcome * list event),
    out ≡ₚ imap (λ i r,
              send_email (request_sender data port) (env i) r
                (get data "subject" PyNone) (get data "body" PyNone)) rs
    ∧ handle data
      = ((ReportJson (batch_report (out.*1)), 200), concat (out.*2)).
Proof.
  intros (Hf & Hp & Hs & Hb & Hr & Hne & Hport & w & Hw & Hpos).
  unfold send_bulk_emails, EmailSender_init.
  rewrite Hr, Hport, Hw. cbn [forallb truthy].
  rewrite Hf, Hp, Hs, Hb. destruct rs as [|r rs']; [done|].
  cbn [andb negb isinstance_list items orb].
  rewrite bool_decide_eq_false_2 by done.
  cbn [ThreadPoolExecutor_init]. rewrite decide_False by lia.
  fold (request_sender data port).
  eexists. split; [|reflexivity].
  rewrite run_pool_results by lia.
  unfold send_task. by rewrite fmap_imap.
Qed.

(** A request is turned down with status 400, and nothing is sent, when a
    required key is absent or the recipients are not a list with an
    element. *)
Lemma send_bulk_emails_rejected data :
  (∃ key, key ∈ required_fields ∧ data !! key = None)
  ∨ items (get data "recipients" (PyList [])) = [] →
  ∃ msg, handle data = ((ErrorJson false msg, 400), []).
Proof.
  intros Hbad. unfold send_bulk_emails.
  destruct (forallb truthy _) eqn:Hall; [|by eexists].
  cbn [negb]. cbn [forallb] in Hall. rewrite !andb_true_iff in Hall.
  destruct Hall as (Hf & Hp & Hr & Hs & Hb & _).
  destruct Hbad as [(key & Hkey & Hnone) | Hempty].
  - exfalso. unfold required_fields in Hkey. unfold get in *.
    set_unfold in Hkey.
    destruct Hkey as [-> | [-> | [-> | [-> | [-> | []]]]]];
      rewrite Hnone in *; done.
  - destruct (isinstance_list _) eqn:Hl; [|by eexists].
    rewrite Hempty. by eexists.
Qed.
End bulk.

(** C1.  For a BulkSendRequest with recipients [rs], whatever the servers and
    the scheduler do, the handler answers 200 with a report whose results are
    the outcomes of the recipients, one for each position of [rs] and so one
    for each copy of a repeated address, in some order; hence there are as
    many results as recipients.  Its [total] is the number of results, its
    [successful] and [failed] count the results that succeeded and those that
    did not, and [total = successful + failed]. *)
Theorem bulk_report_one_outcome_per_recipient {codec : Codec}
    (py_int : pyval → string + Z) (cpu_count : nat)
    (env : nat → nat → server) (sched : nat → nat)
    (data : gmap string pyval) (rs : list pyval) (port : Z) :
  BulkSendRequest py_int data rs port →
  ∃ report : BatchReport,
    (send_bulk_emails py_int cpu_count env sched data).1 = (ReportJson report, 200)
    ∧ results report ≡ₚ imap (outcome_of data port env) rs
    ∧ length (results report) = length rs
    ∧ total report = Z.of_nat (length (results report))
    ∧ successful report = count_successful (results report)
    ∧ failed report = count_failed (results report)
    ∧ total report = successful report + failed report.
Proof.
  intros Hreq.
  destruct (send_bulk_emails_accepted py_int cpu_count env sched data rs port Hreq)
    as (out & Hperm & ->).
  exists (batch_report (out.*1)). cbn [fst results batch_report].
  assert (out.*1 ≡ₚ imap (outcome_of data port env) rs) as Hres.
  { rewrite Hperm. by rewrite fmap_imap. }
  split_and!; try done.
  - by rewrite Hres, length_imap.
  - cbn. pose proof (count_split (out.*1)). lia.
  - cbn. pose proof (count_split (out.*1)). lia.
Qed.

(** C3.  In a BulkSendRequest, let the recipient at position [i] be one for
    whom every attempt raises, whatever the exception.  The handler still
    answers 200 with a report of as many results as recipients; the report
    has the failed outcome of that recipient; and it has, for every other
    position, the outcome of that recipient's own send. *)
Theorem bulk_fault_contained {codec : Codec}
    (py_int : pyval → string + Z) (cpu_count : nat)
    (env : nat → nat → server) (sched : nat → nat)
    (data : gmap string pyval) (rs : list pyval) (port : Z)
    (i : nat) (r : pyval) :
  BulkSendRequest py_int data rs port →
  rs !! i = Some r →
  (∀ a, (a < max_retries)%nat →
     ∃ e, attempt_raises (request_sender data port) (env i a) r
            (get data "subject" PyNone) (get data "body" PyNone) e) →
  ∃ report : BatchReport,
    (send_bulk_emails py_int cpu_count env sched data).1 = (ReportJson report, 200)
    ∧ length (results report) = length rs
    ∧ outcome_of data port env i r ∈ results report
    ∧ success (outcome_of data port env i r) = false
    ∧ recipient (outcome_of data port env i r) = r
    ∧ ∀ j r', j ≠ i → rs !! j = Some r' →
        outcome_of data port env j r' ∈ results report.
Proof.
  intros Hreq Hi Hfault.
  destruct (send_bulk_emails_accepted py_int cpu_count env sched data rs port Hreq)
    as (out & Hperm & ->).
  exists (batch_report (out.*1)). cbn [fst results batch_report].
  assert (out.*1 ≡ₚ imap (outcome_of data port env) rs) as Hres.
  { rewrite Hperm. by rewrite fmap_imap. }
  assert (∀ j r', rs !! j = Some r' → outcome_of data port env j r' ∈ out.*1)
    as Hin.
  { intros j r' Hj. rewrite Hres. apply elem_of_lookup_imap. eauto. }
  split_and!; try done.
  - by rewrite Hres, length_imap.
  - by apply Hin.
  - unfold outcome_of, send_email. apply send_loop_all_raise.
    intros a Ha. apply Hfault. apply elem_of_seq in Ha. lia.
  - unfold outcome_of, send_email. apply send_loop_outcome.
  - intros j r' _ Hj. by apply Hin.
Qed.

(** C8.  When a required key is absent from the request, or its recipients
    are an empty list (or no list), the handler answers 400 with an error
    object and no event has happened: no connection was opened, no call was
    made on a server, and the answer carries no outcome. *)
Theorem bulk_rejected_before_sending {codec : Codec}
    (py_int : pyval → string + Z) (cpu_count : nat)
    (env : nat → nat → server) (sched : nat → nat)
    (data : gmap string pyval) :
  (∃ key, key ∈ required_fields ∧ data !! key = None)
  ∨ items (get data "recipients" (PyList [])) = [] →
  ∃ msg,
    send_bulk_emails py_int cpu_count env sched data
      = ((ErrorJson false msg, 400), []).
Proof. apply send_bulk_emails_rejected. Qed.

(** C10.  Whenever the handler answers with a report, the report says
    [success: true] and the status is 200, whatever its outcomes are. *)
Theorem bulk_report_success_always_true {codec : Codec}
    (py_int : pyval → string + Z) (cpu_count : nat)
    (env : nat → nat → server) (sched : nat → nat)
    (data : gmap string pyval) (report : BatchReport) (status : Z) :
  (send_bulk_emails py_int cpu_count env sched data).1 = (ReportJson report, status) →
  report_success report = true ∧ status = 200.
Proof.
  unfold send_bulk_emails.
  repeat (case_match; try done); cbn [fst]; intros [= <- <-]; done.
Qed.

(** ** The theorems at the example inputs *)

Section examples.
(** The examples run on the strict encoder. *)
#[local] Existing Instance utf8_strict.

(** The body of the examples encodes, alone and in its HTML document. *)
Lemma encodes_line1 : encodes "line1".
Proof. split; vm_compute; reflexivity. Defined.



(** C2 as the specification states it fails: the server refuses the login of
    all three attempts with a temporary error, and the outcome carries that
    error, not "Max retries exceeded". *)
Lemma retries_exhausted_not_classified :
  (∀ a, (a < max_retries)%nat →
     attempt_raises example_sender (env_busy a) (PyStr "bob@example.org")
       (PyStr "Hello") (PyStr "line1") (Raise SMTPException "(421, b'busy')")
     ∧ retryable (Raise SMTPException "(421, b'busy')"))
  ∧ attempts_made (send_email example_sender env_busy (PyStr "bob@example.org")
                     (PyStr "Hello") (PyStr "line1")).2 = 3%nat
  ∧ error (send_email example_sender env_busy (PyStr "bob@example.org")
             (PyStr "Hello") (PyStr "line1")).1
    = Some "SMTP error: (421, b'busy')"
  ∧ error (send_email example_sender env_busy (PyStr "bob@example.org")
             (PyStr "Hello") (PyStr "line1")).1
    ≠ Some "Max retries exceeded".
Proof.
  split_and!.
  - intros a _. split; [reflexivity | by left].
  - reflexivity.
  - reflexivity.
  - vm_compute. discriminate.
Qed.

(** The server that is always busy, under the amended C2. *)
Lemma retries_exhausted_last_error_witness :
  let '(o, t) := send_email example_sender env_busy (PyStr "bob@example.org")
                   (PyStr "Hello") (PyStr "line1") in
  o = not_sent (PyStr "bob@example.org")
        (final_error (Raise SMTPException "(421, b'busy')"))
  ∧ attempts_made t = 3%nat
  ∧ sleeps t = [retry_delay; retry_delay].
Proof.
  apply (retries_exhausted_last_error example_sender env_busy
           (PyStr "bob@example.org") (PyStr "Hello") "line1"
           (Raise SMTPException "(421, b'busy')")
           (Raise SMTPException "(421, b'busy')")
           (Raise SMTPException "(421, b'busy')") encodes_line1);
    first [reflexivity | left; reflexivity].
Defined.

(** Rejected credentials: one attempt, the fixed text. *)
Lemma authentication_failure_not_retried_witness :
  let '(o, t) := send_email example_sender env_auth (PyStr "bob@example.org")
                   (PyStr "Hello") (PyStr "line1") in
  o = not_sent (PyStr "bob@example.org")
        "Authentication failed. Check email/password"
  ∧ t = (try_body example_sender (env_auth 0%nat) (PyStr "bob@example.org")
           (PyStr "Hello") (PyStr "line1")).2
  ∧ attempts_made t = 1%nat
  ∧ sleeps t = [].
Proof.
  apply (authentication_failure_not_retried example_sender env_auth
           (PyStr "bob@example.org") (PyStr "Hello") (PyStr "line1")
           (Raise SMTPAuthenticationError "(535, b'secret rejected')"));
    reflexivity.
Defined.

(** Two refused logins, then a delivery. *)
Lemma third_attempt_succeeds_witness :
  let '(o, t) := send_email example_sender env_third (PyStr "bob@example.org")
                   (PyStr "Hello") (PyStr "line1") in
  o = sent (PyStr "bob@example.org")
  ∧ t = (try_body example_sender (env_third 0%nat) (PyStr "bob@example.org")
           (PyStr "Hello") (PyStr "line1")).2
        ++ Sleep 1 :: (try_body example_sender (env_third 1%nat)
                         (PyStr "bob@example.org") (PyStr "Hello") (PyStr "line1")).2
        ++ Sleep 1 :: (try_body example_sender (env_third 2%nat)
                         (PyStr "bob@example.org") (PyStr "Hello") (PyStr "line1")).2
  ∧ attempts_made t = 3%nat
  ∧ sleeps t = [1; 1].
Proof.
  apply (third_attempt_succeeds example_sender env_third
           (PyStr "bob@example.org") (PyStr "Hello") (PyStr "line1")
           (Raise SMTPException "(421, b'busy')")
           (Raise SMTPException "(421, b'busy')"));
    first [reflexivity | left; reflexivity].
Defined.

(** The session of a sender on port 465 with a server that accepts all. *)
Lemma transport_selected_by_port_witness :
  calls (try_body example_sender server_ok (PyStr "bob@example.org")
           (PyStr "Hello") (PyStr "line1")).2
  = [ SMTP_SSL (PyStr "smtp.hostinger.com") 465 relaxed_context 30;
      login (PyStr "ann@example.org") (PyStr "secret");
      send_message (build_message (PyStr "ann@example.org")
                      (PyStr "bob@example.org") (PyStr "Hello") "line1");
      quit ].
Proof.
  exact (proj1 (transport_selected_by_port example_sender server_ok
                  (PyStr "bob@example.org") (PyStr "Hello") "line1"
                  encodes_line1) eq_refl).
Defined.

(** The example request is a BulkSendRequest on the default port, which
    [int_digits] reads from the string of the default. *)
Lemma example_request_accepted :
  BulkSendRequest int_digits example_request
    [PyStr "bob@example.org"; PyStr "eve@example.org"; PyStr "bob@example.org"]
    465.
Proof.
  split_and!; try reflexivity; [discriminate|].
  exists 20. split; [reflexivity | reflexivity].
Defined.

(** Three recipients, three results. *)
Lemma bulk_report_one_outcome_per_recipient_witness :
  ∃ report : BatchReport,
    (send_bulk_emails int_digits 4 env_second_fails example_sched
       example_request).1 = (ReportJson report, 200)
    ∧ length (results report) = 3%nat
    ∧ total report = successful report + failed report.
Proof.
  destruct (bulk_report_one_outcome_per_recipient int_digits 4 env_second_fails
              example_sched example_request _ 465 example_request_accepted)
    as (report & Hr & _ & Hl & _ & _ & _ & Hsum).
  exists report. split; [exact Hr|]. split; [exact Hl | exact Hsum].
Defined.

(** The second recipient fails on every attempt; the first is served. *)
Lemma bulk_fault_contained_witness :
  ∃ report : BatchReport,
    (send_bulk_emails int_digits 4 env_second_fails example_sched
       example_request).1 = (ReportJson report, 200)
    ∧ length (results report) = 3%nat
    ∧ not_sent (PyStr "eve@example.org") "SMTP error: (421, b'busy')"
        ∈ results report
    ∧ sent (PyStr "bob@example.org") ∈ results report.
Proof.
  destruct (bulk_fault_contained int_digits 4 env_second_fails example_sched
              example_request _ 465 1 (PyStr "eve@example.org")
              example_request_accepted eq_refl)
    as (report & Hr & Hl & Hin & _ & _ & Hothers).
  { intros a _. exists (Raise SMTPException "(421, b'busy')"). reflexivity. }
  exists report. split; [exact Hr|]. split; [exact Hl|].
  split; [exact Hin|].
  exact (Hothers 0%nat (PyStr "bob@example.org") (Nat.neq_0_succ 0) eq_refl).
Defined.

(** A request with an empty list of recipients. *)
Lemma bulk_rejected_before_sending_witness :
  ∃ msg,
    send_bulk_emails int_digits 4 env_second_fails example_sched
      (<["recipients" := PyList []]> example_request)
    = ((ErrorJson false msg, 400), []).
Proof.
  apply bulk_rejected_before_sending. right. reflexivity.
Defined.

(** Every recipient fails and the report still says [success: true]. *)
Lemma bulk_report_success_always_true_witness :
  ∃ report : BatchReport,
    (send_bulk_emails int_digits 4 (λ _, env_busy) example_sched
       example_request).1 = (ReportJson report, 200)
    ∧ successful report = 0
    ∧ failed report = 3
    ∧ report_success report = true.
Proof.
  eexists. split; [vm_compute; reflexivity|]. split; [reflexivity|].
  split; [reflexivity|].
  eapply (bulk_report_success_always_true int_digits 4 (λ _, env_busy)
            example_sched example_request _ 200).
  vm_compute; reflexivity.
Defined.
End examples.

(** * Further properties of [send_email] *)

Section retry_prefix.
Context {codec : Codec}.
Variables (self : EmailSender) (env : nat → server) (to_email subject body : pyval).

Local Abbreviation attempt_of a := (try_body self (env a) to_email subject body).
Local Abbreviation loop := (send_loop self env to_email subject body).
Local Abbreviation prefix_trace := (retry_trace self env to_email subject body).

(** No attempt sleeps. *)
Lemma try_body_sleeps srv : sleeps (try_body self srv to_email subject body).2 = [].
Proof.
  destruct body as [| | |text| |]; try reflexivity.
  destruct (encodes_dec text) as [Henc|Hno].
  - by apply (try_body_str self srv to_email subject).
  - destruct (try_body_not_encoded self srv to_email subject text Hno)
      as [msg ->].
    reflexivity.
Qed.

(** An attempt opens at most one connection. *)
Lemma try_body_attempts_le srv :
  (attempts_made (try_body self srv to_email subject body).2 ≤ 1)%nat.
Proof.
  destruct body as [| | |text| |]; try (simpl; unfold attempts_made; simpl; lia).
  destruct (encodes_dec text) as [Henc|Hno].
  - pose proof (try_body_str self srv to_email subject text Henc) as [-> _]. lia.
  - destruct (try_body_not_encoded self srv to_email subject text Hno)
      as [msg ->].
    unfold attempts_made; simpl; lia.
Qed.

(** Attempts that raise a retryable error before the last one are passed
    over, each with its pause. *)
Lemma send_loop_skip pre rest :
  (∀ a, a ∈ pre →
     (a < max_retries - 1)%nat
     ∧ ∃ e, attempt_raises self (env a) to_email subject body e ∧ retryable e) →
  loop (pre ++ rest) = ((loop rest).1, prefix_trace pre ++ (loop rest).2).
Proof.
  induction pre as [|a pre IH]; intros Hpre.
  { simpl. by destruct (loop rest). }
  destruct (Hpre a) as (Ha & e & He & Hr); [by left|].
  rewrite <-app_comm_cons, (send_loop_retry _ _ _ _ _ _ _ _ He Hr Ha).
  rewrite IH by (intros b Hb; apply Hpre; by right).
  unfold retry_trace. rewrite fmap_cons. simpl.
  by rewrite <-!app_assoc.
Qed.

Lemma sleeps_retry_trace pre :
  sleeps (prefix_trace pre) = replicate (length pre) retry_delay.
Proof.
  unfold retry_trace. induction pre as [|a pre IH]; [done|].
  rewrite fmap_cons. simpl. rewrite !sleeps_app, try_body_sleeps, IH. done.
Qed.

Lemma attempts_made_retry_trace pre text :
  body = PyStr text → encodes text →
  attempts_made (prefix_trace pre) = length pre.
Proof.
  intros -> Henc. unfold retry_trace. induction pre as [|a pre IH]; [done|].
  rewrite fmap_cons. simpl concat. rewrite !attempts_made_app, IH.
  pose proof (try_body_str self (env a) to_email subject text Henc) as [-> _].
  rewrite attempts_made_sleep. unfold attempts_made. simpl. lia.
Qed.

(** The attempts before [k] and those from [k] on. *)
Lemma attempts_split k :
  (k < max_retries)%nat →
  seq 0 max_retries = seq 0 k ++ k :: seq (S k) (max_retries - S k).
Proof.
  intros Hk. replace max_retries with (k + S (max_retries - S k))%nat at 1 by lia.
  by rewrite seq_app.
Qed.

(** [send_email] when the attempts before [k] raise retryable errors. *)
Lemma send_email_skip k :
  (k < max_retries)%nat →
  (∀ a, (a < k)%nat →
     ∃ e, attempt_raises self (env a) to_email subject body e ∧ retryable e) →
  send_email self env to_email subject body
  = ((loop (k :: seq (S k) (max_retries - S k))).1,
     prefix_trace (seq 0 k) ++ (loop (k :: seq (S k) (max_retries - S k))).2).
Proof.
  intros Hk Hpre. unfold send_email. rewrite (attempts_split k Hk).
  apply send_loop_skip. intros a Ha. apply elem_of_seq in Ha.
  split; [unfold max_retries in *; lia|]. apply Hpre. lia.
Qed.
End retry_prefix.

(** X1.  Whatever the server does, the outcome of [send_email] names the
    recipient it was asked to send to, and it carries an error text exactly
    when it is not a success. *)
Theorem send_email_outcome_shape {codec : Codec}
    (self : EmailSender) (env : nat → server) (to_email subject body : pyval) :
  let o := (send_email self env to_email subject body).1 in
  recipient o = to_email
  ∧ (success o = true ↔ error o = None)
  ∧ (success o = false ↔ ∃ msg, error o = Some msg).
Proof.
  intros o.
  destruct (send_loop_outcome self env to_email subject body (seq 0 max_retries))
    as (Hr & Hs).
  fold (send_email self env to_email subject body) in Hr, Hs. fold o in Hr, Hs.
  split; [done|]. split.
  - destruct (success o), (error o) as [msg|]; split; try done.
    + intros _. exfalso. assert (true = false) by (apply Hs; by eexists). done.
    + intros _. exfalso. destruct Hs as [Hs _]. by destruct (Hs eq_refl).
  - rewrite Hs. unfold is_Some. done.
Qed.

Section outcomes.
Context {codec : Codec}.
Variables (self : EmailSender) (env : nat → server) (to_email subject body : pyval).

Local Abbreviation attempt_of a := (try_body self (env a) to_email subject body).
Local Abbreviation loop := (send_loop self env to_email subject body).

(** A success comes from an attempt that reached its [return], and that
    attempt ends the trace. *)
Lemma send_loop_success attempts :
  success (loop attempts).1 = true →
  ∃ a pre, a ∈ attempts
    ∧ attempt_succeeds self (env a) to_email subject body
    ∧ (loop attempts).2 = pre ++ (attempt_of a).2.
Proof.
  induction attempts as [|a rest IH]; simpl; [done|].
  unfold attempt_succeeds.
  destruct (attempt_of a) as [[e|[]] t] eqn:Ha; simpl.
  - assert (success (loop rest).1 = true →
            ∃ a' pre, a' ∈ a :: rest
              ∧ (try_body self (env a') to_email subject body).1 = inr ()
              ∧ t ++ Sleep retry_delay :: (loop rest).2
                = pre ++ (try_body self (env a') to_email subject body).2) as Hrec.
    { intros Hs. destruct (IH Hs) as (a' & pre & Hin & Hok & Ht).
      exists a', (t ++ Sleep retry_delay :: pre). split; [by right|].
      split; [done|]. rewrite Ht. by rewrite <-app_assoc. }
    destruct (exn_cls e); simpl; try done;
      case_decide; simpl; try done;
      destruct (loop rest) as [o t']; simpl in *; done.
  - intros _. exists a, []. rewrite Ha. split; [by left|]. done.
Qed.

(** The shape of every trace: some number [k] of attempts with their pauses,
    and one more attempt. *)
Lemma send_loop_trace_shape i n :
  (i + S n = max_retries)%nat →
  ∃ k, (k ≤ n)%nat
    ∧ sleeps (loop (seq i (S n))).2 = replicate k retry_delay
    ∧ (attempts_made (loop (seq i (S n))).2 ≤ S k)%nat
    ∧ (∀ text, body = PyStr text → encodes text →
         attempts_made (loop (seq i (S n))).2 = S k).
Proof.
  revert i. induction n as [|n IH]; intros i Hi.
  - assert (¬ (i < max_retries - 1)%nat) as Hlast by lia.
    exists 0%nat. cbn [seq send_loop].
    pose proof (try_body_sleeps self to_email subject body (env i)) as Hs.
    pose proof (try_body_attempts_le self to_email subject body (env i)) as Hle.
    assert (∀ text, body = PyStr text → encodes text →
              attempts_made (attempt_of i).2 = 1%nat) as Heq.
    { intros text -> Henc. by apply try_body_str. }
    destruct (attempt_of i) as [[e|u] t]; simpl in *.
    + destruct (exn_cls e); simpl; try done; rewrite decide_False by done; done.
    + done.
  - assert (i < max_retries - 1)%nat as Hnot_last by lia.
    change (seq i (S (S n))) with (i :: seq (S i) (S n)). cbn [send_loop].
    destruct (IH (S i)) as (k & Hk & Hsl & Hle' & Heq'); [lia|].
    destruct (loop (seq (S i) (S n))) as [o t'].
    pose proof (try_body_sleeps self to_email subject body (env i)) as Hs.
    pose proof (try_body_attempts_le self to_email subject body (env i)) as Hle.
    assert (∀ text, body = PyStr text → encodes text →
              attempts_made (attempt_of i).2 = 1%nat) as Heq.
    { intros text -> Henc. by apply try_body_str. }
    destruct (attempt_of i) as [[e|u] t]; simpl in *.
    + destruct (exn_cls e); simpl;
        try (exists 0%nat; split; [lia|]; done);
        rewrite decide_True by done; cbn [fst snd];
        (exists (S k); split; [lia|]; split_and!;
         [ by rewrite sleeps_app, Hs; simpl; rewrite Hsl
         | rewrite attempts_made_app, attempts_made_sleep; lia
         | intros text Hb Henc; rewrite attempts_made_app, attempts_made_sleep,
             (Heq text Hb Henc), (Heq' text Hb Henc); lia ]).
    + exists 0%nat. split; [lia|]. done.
Qed.
End outcomes.

Section classification.
Context {codec : Codec}.
Variables (self : EmailSender) (env : nat → server) (to_email subject body : pyval).

Local Abbreviation attempt_of a := (try_body self (env a) to_email subject body).
Local Abbreviation loop := (send_loop self env to_email subject body).
Local Abbreviation raises a e := (attempt_raises self (env a) to_email subject body e).

(** The five ways out of the loop over any list of attempts. *)
Lemma send_loop_classification attempts :
  let o := (loop attempts).1 in
  (o = sent to_email
   ∧ ∃ a, a ∈ attempts ∧ attempt_succeeds self (env a) to_email subject body)
  ∨ (o = not_sent to_email "Authentication failed. Check email/password"
     ∧ ∃ a e, a ∈ attempts ∧ raises a e ∧ exn_cls e = SMTPAuthenticationError)
  ∨ (o = not_sent to_email "Recipient address rejected"
     ∧ ∃ a e, a ∈ attempts ∧ raises a e ∧ exn_cls e = SMTPRecipientsRefused)
  ∨ (∃ a e, a ∈ attempts ∧ ¬ (a < max_retries - 1)%nat
       ∧ o = not_sent to_email (final_error e) ∧ raises a e ∧ retryable e)
  ∨ (o = not_sent to_email "Max retries exceeded"
     ∧ ∀ a, a ∈ attempts → (a < max_retries - 1)%nat).
Proof.
  induction attempts as [|a rest IH]; simpl.
  { do 4 right. split; [done|]. intros a Ha. by apply elem_of_nil in Ha. }
  unfold attempt_succeeds, attempt_raises, final_error, retryable in *.
  assert (∀ e t, (attempt_of a) = (inl e, t) →
            (a < max_retries - 1)%nat →
            let o := (loop rest).1 in
            (o = sent to_email
             ∧ ∃ a', a' ∈ a :: rest ∧ (attempt_of a').1 = inr ())
            ∨ (o = not_sent to_email "Authentication failed. Check email/password"
               ∧ ∃ a' e', a' ∈ a :: rest ∧ (attempt_of a').1 = inl e'
                   ∧ exn_cls e' = SMTPAuthenticationError)
            ∨ (o = not_sent to_email "Recipient address rejected"
               ∧ ∃ a' e', a' ∈ a :: rest ∧ (attempt_of a').1 = inl e'
                   ∧ exn_cls e' = SMTPRecipientsRefused)
            ∨ (∃ a' e', a' ∈ a :: rest ∧ ¬ (a' < max_retries - 1)%nat
                 ∧ o = not_sent to_email
                         match exn_cls e' with
                         | SMTPException => "SMTP error: " +:+ exn_str e'
                         | _ => exn_str e'
                         end
                 ∧ (attempt_of a').1 = inl e'
                 ∧ (exn_cls e' = SMTPException ∨ exn_cls e' = Exception))
            ∨ (o = not_sent to_email "Max retries exceeded"
               ∧ ∀ a', a' ∈ a :: rest → (a' < max_retries - 1)%nat)) as Hrec.
  { intros e t Ha Hlt. simpl.
    destruct IH as [(Ho & a' & Hin & H)
                   |[(Ho & a' & e' & Hin & H)
                   |[(Ho & a' & e' & Hin & H)
                   |[(a' & e' & Hin & H)
                   |(Ho & H)]]]].
    - left. split; [done|]. exists a'. split; [by right | done].
    - right; left. split; [done|]. exists a', e'. split; [by right | done].
    - do 2 right; left. split; [done|]. exists a', e'. split; [by right | done].
    - do 3 right; left. exists a', e'. split; [by right | done].
    - do 4 right. split; [done|]. intros b Hb.
      apply elem_of_cons in Hb as [-> | Hb]; [done | by apply H]. }
  destruct (attempt_of a) as [[e|[]] t] eqn:Ha; simpl.
  - destruct (exn_cls e) eqn:Hc; simpl.
    + right; left. split; [done|]. exists a, e. rewrite Ha.
      split; [by left | done].
    + do 2 right; left. split; [done|]. exists a, e. rewrite Ha.
      split; [by left | done].
    + case_decide as Hlt.
      * specialize (Hrec e t eq_refl Hlt). by destruct (loop rest).
      * do 3 right; left. exists a, e. rewrite Ha, Hc.
        split; [by left|]. split_and!; try done. by left.
    + case_decide as Hlt.
      * specialize (Hrec e t eq_refl Hlt). by destruct (loop rest).
      * do 3 right; left. exists a, e. rewrite Ha, Hc.
        split; [by left|]. split_and!; try done. by right.
  - left. split; [done|]. exists a. rewrite Ha. split; [by left | done].
Qed.
End classification.

(** X2.  Every outcome of [send_email] is one of four: a success, after an
    attempt that reached its [return]; the fixed authentication text, after
    an attempt that raised [SMTPAuthenticationError]; the fixed recipient
    text, after an attempt that raised [SMTPRecipientsRefused]; or the text of
    the retryable error that the third attempt raised.  The [return] after
    the loop, with "Max retries exceeded", is never the one that is taken. *)
Theorem send_email_classification {codec : Codec}
    (self : EmailSender) (env : nat → server) (to_email subject body : pyval) :
  let o := (send_email self env to_email subject body).1 in
  (o = sent to_email
   ∧ ∃ a, (a < max_retries)%nat
       ∧ attempt_succeeds self (env a) to_email subject body)
  ∨ (o = not_sent to_email "Authentication failed. Check email/password"
     ∧ ∃ a e, (a < max_retries)%nat
         ∧ attempt_raises self (env a) to_email subject body e
         ∧ exn_cls e = SMTPAuthenticationError)
  ∨ (o = not_sent to_email "Recipient address rejected"
     ∧ ∃ a e, (a < max_retries)%nat
         ∧ attempt_raises self (env a) to_email subject body e
         ∧ exn_cls e = SMTPRecipientsRefused)
  ∨ (∃ e, o = not_sent to_email (final_error e)
       ∧ attempt_raises self (env 2%nat) to_email subject body e
       ∧ retryable e).
Proof.
  intros o.
  assert (∀ a, a ∈ seq 0 max_retries → (a < max_retries)%nat) as Hseq.
  { intros a Ha. apply elem_of_seq in Ha. lia. }
  destruct (send_loop_classification self env to_email subject body
              (seq 0 max_retries))
    as [(Ho & a & Hin & H)
       |[(Ho & a & e & Hin & H)
       |[(Ho & a & e & Hin & H)
       |[(a & e & Hin & Hlast & Ho & Hr & Hre)
       |(Ho & H)]]]].
  - left. split; [done|]. exists a. split; [by apply Hseq | done].
  - right; left. split; [done|]. exists a, e. split; [by apply Hseq | done].
  - do 2 right; left. split; [done|]. exists a, e. split; [by apply Hseq | done].
  - do 3 right. exists e. split; [done|].
    assert (a = 2%nat) as -> by (apply Hseq in Hin; unfold max_retries in *; lia).
    done.
  - exfalso. assert (2 < max_retries - 1)%nat; [|unfold max_retries in *; lia].
    apply H. apply elem_of_seq. unfold max_retries. lia.
Qed.

(** X3.  The attempt [k] on which the send succeeds, after retryable errors
    on the attempts before it, is the last one: the outcome is the success,
    [k + 1] connections were opened and there were [k] pauses, all of
    [retry_delay]. *)
Theorem success_ends_retries {codec : Codec}
    (self : EmailSender) (env : nat → server) (to_email subject body : pyval)
    (k : nat) :
  (k < max_retries)%nat →
  (∀ a, (a < k)%nat →
     ∃ e, attempt_raises self (env a) to_email subject body e ∧ retryable e) →
  attempt_succeeds self (env k) to_email subject body →
  let '(o, t) := send_email self env to_email subject body in
  o = sent to_email
  ∧ attempts_made t = S k
  ∧ sleeps t = replicate k retry_delay.
Proof.
  intros Hk Hpre Hok.
  rewrite (send_email_skip _ _ _ _ _ k Hk Hpre).
  rewrite (send_loop_return _ _ _ _ _ _ _ Hok). cbn [fst snd].
  destruct (attempt_succeeds_str _ _ _ _ _ Hok) as [text ->].
  pose proof (attempt_succeeds_encodes _ _ _ _ _ Hok) as Henc.
  split; [done|]. split.
  - rewrite attempts_made_app,
      (attempts_made_retry_trace _ _ _ _ _ _ text eq_refl Henc).
    pose proof (try_body_str self (env k) to_email subject text Henc) as [-> _].
    rewrite length_seq. lia.
  - rewrite sleeps_app, sleeps_retry_trace, try_body_sleeps, length_seq.
    by rewrite app_nil_r.
Qed.

(** X4.  A refused recipient is not tried again: when attempt [k] raises
    [SMTPRecipientsRefused] after retryable errors on the attempts before
    it, [send_email] returns the fixed text, whatever the server wrote, after
    [k + 1] connections and [k] pauses. *)
Theorem recipient_refused_ends_retries {codec : Codec}
    (self : EmailSender) (env : nat → server) (to_email subject body : pyval)
    (k : nat) (e : exn) :
  (k < max_retries)%nat →
  (∀ a, (a < k)%nat →
     ∃ e', attempt_raises self (env a) to_email subject body e' ∧ retryable e') →
  attempt_raises self (env k) to_email subject body e →
  exn_cls e = SMTPRecipientsRefused →
  let '(o, t) := send_email self env to_email subject body in
  o = not_sent to_email "Recipient address rejected"
  ∧ attempts_made t = S k
  ∧ sleeps t = replicate k retry_delay.
Proof.
  intros Hk Hpre He Hc.
  rewrite (send_email_skip _ _ _ _ _ k Hk Hpre).
  rewrite (send_loop_refused _ _ _ _ _ _ _ _ He Hc). cbn [fst snd].
  destruct (attempt_raises_smtp_str _ _ _ _ _ _ He) as [text ->];
    [by rewrite Hc|].
  assert (encodes text) as Henc.
  { apply (attempt_raises_smtp_encodes _ _ _ _ _ _ He). by rewrite Hc. }
  split; [done|]. split.
  - rewrite attempts_made_app,
      (attempts_made_retry_trace _ _ _ _ _ _ text eq_refl Henc).
    pose proof (try_body_str self (env k) to_email subject text Henc) as [-> _].
    rewrite length_seq. lia.
  - rewrite sleeps_app, sleeps_retry_trace, try_body_sleeps, length_seq.
    by rewrite app_nil_r.
Qed.

(** X5.  An authentication failure ends the retries on whatever attempt it
    comes: when attempt [k] raises [SMTPAuthenticationError] after retryable
    errors on the attempts before it, [send_email] returns the fixed text
    after [k + 1] connections and [k] pauses. *)
Theorem authentication_failure_ends_retries {codec : Codec}
    (self : EmailSender) (env : nat → server) (to_email subject body : pyval)
    (k : nat) (e : exn) :
  (k < max_retries)%nat →
  (∀ a, (a < k)%nat →
     ∃ e', attempt_raises self (env a) to_email subject body e' ∧ retryable e') →
  attempt_raises self (env k) to_email subject body e →
  exn_cls e = SMTPAuthenticationError →
  let '(o, t) := send_email self env to_email subject body in
  o = not_sent to_email "Authentication failed. Check email/password"
  ∧ attempts_made t = S k
  ∧ sleeps t = replicate k retry_delay.
Proof.
  intros Hk Hpre He Hc.
  rewrite (send_email_skip _ _ _ _ _ k Hk Hpre).
  rewrite (send_loop_authentication _ _ _ _ _ _ _ _ He Hc). cbn [fst snd].
  destruct (attempt_raises_smtp_str _ _ _ _ _ _ He) as [text ->];
    [by rewrite Hc|].
  assert (encodes text) as Henc.
  { apply (attempt_raises_smtp_encodes _ _ _ _ _ _ He). by rewrite Hc. }
  split; [done|]. split.
  - rewrite attempts_made_app,
      (attempts_made_retry_trace _ _ _ _ _ _ text eq_refl Henc).
    pose proof (try_body_str self (env k) to_email subject text Henc) as [-> _].
    rewrite length_seq. lia.
  - rewrite sleeps_app, sleeps_retry_trace, try_body_sleeps, length_seq.
    by rewrite app_nil_r.
Qed.

(** X6.  Whatever the server does, for a [str] body whose message is built
    [send_email] opens at least one and at most [max_retries] connections,
    sleeps once between two of them and never after the last, and every
    pause is [retry_delay]: the delay does not grow. *)
Theorem send_email_trace_shape {codec : Codec}
    (self : EmailSender) (env : nat → server) (to_email subject : pyval)
    (text : string) :
  encodes text →
  let t := (send_email self env to_email subject (PyStr text)).2 in
  (1 ≤ attempts_made t ≤ max_retries)%nat
  ∧ sleeps t = replicate (attempts_made t - 1) retry_delay.
Proof.
  intros Henc t.
  destruct (send_loop_trace_shape self env to_email subject (PyStr text) 0 2)
    as (k & Hk & Hs & _ & Ha); [done|].
  specialize (Ha text eq_refl Henc).
  subst t. unfold send_email, max_retries. rewrite Ha, Hs.
  split; [lia|]. f_equal. lia.
Qed.

(** X21.  A [str] body with a part that does not encode never reaches the
    server: each of the three attempts stops at the [MIMEText] that raises,
    so [send_email] opens no connection, still sleeps twice, and returns the
    failure with the text of the [UnicodeEncodeError]. *)
Theorem body_not_encoded_never_connects {codec : Codec}
    (self : EmailSender) (env : nat → server) (to_email subject : pyval)
    (text msg : string) :
  utf8_encode_error text = Some msg
  ∨ (utf8_encode_error text = None
     ∧ utf8_encode_error (html_content text) = Some msg) →
  send_email self env to_email subject (PyStr text)
  = (not_sent to_email msg, [Sleep retry_delay; Sleep retry_delay]).
Proof.
  intros Hbad.
  assert (∀ srv, try_body self srv to_email subject (PyStr text)
                 = (inl (Raise Exception msg), [])) as Htry.
  { intros srv. unfold try_body, as_str, create_message, mime_text.
    cbn [eff_bind eff_ret].
    destruct Hbad as [-> | [-> ->]]; reflexivity. }
  unfold send_email. simpl seq. cbn [send_loop]. rewrite !Htry.
  reflexivity.
Qed.

(** X7.  A body that is not a [str] never reaches the server: each of the
    three attempts stops at [body.replace], so [send_email] opens no
    connection, still sleeps twice, and returns the failure with the text of
    the [AttributeError]. *)
Theorem body_not_str_never_connects {codec : Codec}
    (self : EmailSender) (env : nat → server) (to_email subject body : pyval) :
  (∀ text, body ≠ PyStr text) →
  send_email self env to_email subject body
  = (not_sent to_email
       ("'" +:+ type_name body +:+ "' object has no attribute 'replace'"),
     [Sleep retry_delay; Sleep retry_delay]).
Proof.
  intros Hb. destruct body; try reflexivity. by destruct (Hb s).
Qed.

Section delivery.
Context {codec : Codec}.
Variables (self : EmailSender) (srv : server) (to_email subject : pyval).

Lemma deliveries_app t1 t2 :
  deliveries (t1 ++ t2) = (deliveries t1 + deliveries t2)%nat.
Proof. unfold deliveries. by rewrite filter_app, length_app. Qed.

Lemma deliveries_sleep d t : deliveries (Sleep d :: t) = deliveries t.
Proof. reflexivity. Qed.

(** An attempt reaches its [return] only after the server has taken the
    login, the message and the [QUIT]. *)
Lemma attempt_succeeds_calls body :
  attempt_succeeds self srv to_email subject body →
  ∃ text, body = PyStr text
    ∧ srv (login (email self) (password self)) = None
    ∧ srv (send_message (build_message (email self) to_email subject text)) = None
    ∧ srv quit = None
    ∧ Call (send_message (build_message (email self) to_email subject text))
        ∈ (try_body self srv to_email subject body).2.
Proof.
  intros Hok. destruct (attempt_succeeds_str _ _ _ _ _ Hok) as [text ->].
  pose proof (attempt_succeeds_encodes _ _ _ _ _ Hok) as Henc.
  exists text. split; [done|]. revert Hok.
  unfold attempt_succeeds, try_body, as_str. cbn [eff_bind eff_ret].
  rewrite (create_message_encodes self to_email subject text Henc).
  unfold with_server, call, eff_bind, eff_ret.
  simpl. repeat case_decide; simpl;
    repeat (case_match; simplify_eq/=); try done;
    intros _; split_and!; try done; set_solver.
Qed.

(** When only the [QUIT] fails, the attempt has transmitted the message and
    raises the error of the [QUIT]. *)
Lemma try_body_quit_raises text e :
  encodes text →
  (∀ c, c ≠ quit → srv c = None) → srv quit = Some e →
  attempt_raises self srv to_email subject (PyStr text) e
  ∧ deliveries (try_body self srv to_email subject (PyStr text)).2 = 1%nat.
Proof.
  intros Henc Hok Hq.
  unfold attempt_raises, try_body, as_str. cbn [eff_bind eff_ret].
  rewrite (create_message_encodes self to_email subject text Henc).
  unfold with_server, call, eff_bind, eff_ret.
  simpl. repeat case_decide; simpl;
    rewrite ?Hok by done; simpl; rewrite ?Hq; simpl;
    rewrite ?Hok by done; simpl; rewrite ?Hq; simpl; done.
Qed.
End delivery.

(** X8.  [send_email] reports a success only for a message the server took:
    in some attempt the server accepted the login, the message built for this
    recipient and the [QUIT], and the transmission of that message is in the
    trace. *)
Theorem success_means_accepted {codec : Codec}
    (self : EmailSender) (env : nat → server) (to_email subject body : pyval) :
  success (send_email self env to_email subject body).1 = true →
  ∃ a text,
    (a < max_retries)%nat
    ∧ body = PyStr text
    ∧ env a (login (email self) (password self)) = None
    ∧ env a (send_message (build_message (email self) to_email subject text)) = None
    ∧ env a quit = None
    ∧ Call (send_message (build_message (email self) to_email subject text))
        ∈ (send_email self env to_email subject body).2.
Proof.
  intros Hs. unfold send_email in *.
  destruct (send_loop_success _ _ _ _ _ _ Hs) as (a & pre & Hin & Hok & Ht).
  destruct (attempt_succeeds_calls _ _ _ _ _ Hok)
    as (text & -> & Hl & Hm & Hq & Hcall).
  exists a, text. apply elem_of_seq in Hin.
  split_and!; try done; [lia|].
  rewrite Ht. apply elem_of_app. by right.
Qed.

(** X9.  A failing [QUIT] makes [send_email] transmit again.  When the
    message is built and the server takes every call but answers each [QUIT]
    with a retryable error, the
    message is transmitted on all three attempts and the outcome is still a
    failure. *)
Theorem failing_quit_transmits_again {codec : Codec}
    (self : EmailSender) (env : nat → server) (to_email subject : pyval)
    (text : string) :
  encodes text →
  (∀ a c, c ≠ quit → env a c = None) →
  (∀ a, ∃ e, env a quit = Some e ∧ retryable e) →
  let '(o, t) := send_email self env to_email subject (PyStr text) in
  success o = false
  ∧ deliveries t = 3%nat
  ∧ attempts_made t = 3%nat.
Proof.
  intros Henc Hok Hq.
  destruct (Hq 0%nat) as (e0 & Hq0 & R0).
  destruct (Hq 1%nat) as (e1 & Hq1 & R1).
  destruct (Hq 2%nat) as (e2 & Hq2 & R2).
  destruct (try_body_quit_raises self (env 0%nat) to_email subject text e0
              Henc (Hok 0%nat) Hq0) as [H0 D0].
  destruct (try_body_quit_raises self (env 1%nat) to_email subject text e1
              Henc (Hok 1%nat) Hq1) as [H1 D1].
  destruct (try_body_quit_raises self (env 2%nat) to_email subject text e2
              Henc (Hok 2%nat) Hq2) as [H2 D2].
  unfold send_email. simpl seq.
  rewrite (send_loop_retry _ _ _ _ _ _ _ _ H0 R0) by (unfold max_retries; lia).
  rewrite (send_loop_retry _ _ _ _ _ _ _ _ H1 R1) by (unfold max_retries; lia).
  rewrite (send_loop_last _ _ _ _ _ _ _ _ H2 R2) by (unfold max_retries; lia).
  cbn [fst snd]. split; [done|].
  pose proof (try_body_str self (env 0%nat) to_email subject text Henc) as [A0 _].
  pose proof (try_body_str self (env 1%nat) to_email subject text Henc) as [A1 _].
  pose proof (try_body_str self (env 2%nat) to_email subject text Henc) as [A2 _].
  cbn zeta in A0, A1, A2. split.
  - rewrite !deliveries_app, !deliveries_sleep, !deliveries_app,
      !deliveries_sleep, D0, D1, D2. reflexivity.
  - rewrite !attempts_made_app, !attempts_made_sleep, !attempts_made_app,
      !attempts_made_sleep. lia.
Qed.

(** X10.  [use_ssl] is computed by the constructor and never read: two
    senders that agree on server, port, address and secret send in the same
    way and return the same outcome. *)
Theorem use_ssl_not_consulted {codec : Codec}
    (self self' : EmailSender) (env : nat → server)
    (to_email subject body : pyval) :
  smtp_server self = smtp_server self' →
  smtp_port self = smtp_port self' →
  email self = email self' →
  password self = password self' →
  send_email self env to_email subject body
  = send_email self' env to_email subject body.
Proof.
  destruct self as [h p u w s], self' as [h' p' u' w' s']. simpl.
  intros -> -> -> ->. unfold send_email.
  induction (seq 0 max_retries) as [|a rest IH]; [done|].
  simpl. by rewrite IH.
Qed.

(** * Further properties of the handlers *)

Section single.
Context {codec : Codec}.
Variables (py_int : pyval → string + Z) (env : nat → server).

Local Abbreviation handle := (send_single_email py_int env).

(** The five values [send_single_email] tests are all true. *)
Lemma single_fields_truthy data :
  (∀ key, key ∈ single_required_fields → truthy (get data key PyNone) = true) →
  forallb truthy [get data "from" PyNone; get data "password" PyNone;
                  get data "to" PyNone; get data "subject" PyNone;
                  get data "body" PyNone] = true.
Proof.
  intros H. cbn [forallb]. unfold single_required_fields in H.
  rewrite !H by set_solver. done.
Qed.
End single.

(** X11.  [send_single_email] turns down, with status 400 and before any
    connection, a request in which one of "from", "password", "to",
    "subject" and "body" is absent, null or empty. *)
Theorem single_rejected_before_sending {codec : Codec}
    (py_int : pyval → string + Z) (env : nat → server)
    (data : gmap string pyval) (key : string) :
  key ∈ single_required_fields →
  truthy (get data key PyNone) = false →
  send_single_email py_int env data
  = ((SingleError false "Missing required fields", 400), []).
Proof.
  intros Hkey Hfalse. unfold send_single_email.
  destruct (forallb truthy _) eqn:Hall; [|done].
  exfalso. cbn [forallb] in Hall. rewrite !andb_true_iff in Hall.
  destruct Hall as (Hf & Hp & Ht & Hs & Hb & _).
  unfold single_required_fields in Hkey. set_unfold in Hkey.
  destruct Hkey as [-> | [-> | [-> | [-> | [-> | []]]]]]; congruence.
Qed.

(** X12.  For a request whose five fields are present and whose port
    converts, [send_single_email] answers with the dictionary of [send_email]
    and status 200, also when that dictionary reports a failure; the events
    are those of that one send. *)
Theorem single_answers_200_with_outcome {codec : Codec}
    (py_int : pyval → string + Z) (env : nat → server)
    (data : gmap string pyval) (port : Z) :
  (∀ key, key ∈ single_required_fields → truthy (get data key PyNone) = true) →
  py_int (get data "smtp_port" (PyStr "465")) = inr port →
  let sending :=
    send_email (request_sender data port) env (get data "to" PyNone)
      (get data "subject" PyNone) (get data "body" PyNone) in
  send_single_email py_int env data = ((OutcomeJson sending.1, 200), sending.2)
  ∧ recipient sending.1 = get data "to" PyNone.
Proof.
  intros Hall Hport sending. split.
  - unfold send_single_email, EmailSender_init.
    rewrite (single_fields_truthy data Hall), Hport. cbn [negb].
    fold (request_sender data port). fold sending. by destruct sending.
  - unfold sending, send_email. apply send_loop_outcome.
Qed.

(** X13.  When [int(smtp_port)] raises, [send_single_email] answers 500 with
    the text of the exception and nothing is sent. *)
Theorem single_port_error {codec : Codec}
    (py_int : pyval → string + Z) (env : nat → server)
    (data : gmap string pyval) (msg : string) :
  (∀ key, key ∈ single_required_fields → truthy (get data key PyNone) = true) →
  py_int (get data "smtp_port" (PyStr "465")) = inl msg →
  send_single_email py_int env data = ((SingleError false msg, 500), []).
Proof.
  intros Hall Hport. unfold send_single_email, EmailSender_init.
  by rewrite (single_fields_truthy data Hall), Hport.
Qed.

Section bulk_more.
Context {codec : Codec}.
Variables (py_int : pyval → string + Z) (cpu_count : nat).

(** The number of workers has no part in what makes a BulkSendRequest but
    its own field. *)
Lemma BulkSendRequest_max_workers data rs port w :
  BulkSendRequest py_int data rs port → 0 < w →
  BulkSendRequest py_int (<["max_workers" := PyInt w]> data) rs port.
Proof.
  intros (Hf & Hp & Hs & Hb & Hr & Hne & Hport & _) Hw.
  unfold BulkSendRequest, get in *.
  rewrite !lookup_insert_ne by done. rewrite lookup_insert_eq.
  split_and!; try done. by exists w.
Qed.

Lemma request_sender_max_workers data port v :
  request_sender (<["max_workers" := v]> data) port = request_sender data port.
Proof.
  unfold request_sender, get. by rewrite !lookup_insert_ne by done.
Qed.

(** One send opens at most [max_retries] connections and sleeps less often. *)
Lemma send_email_bounds self env to_email subject body :
  let t := (send_email self env to_email subject body).2 in
  (attempts_made t ≤ max_retries)%nat ∧ (length (sleeps t) < max_retries)%nat.
Proof.
  destruct (send_loop_trace_shape self env to_email subject body 0 2)
    as (k & Hk & Hs & Ha & _); [done|].
  unfold send_email, max_retries. simpl. simpl in Hs, Ha.
  rewrite Hs, length_replicate. lia.
Qed.

Lemma attempts_made_concat (ts : list (list event)) n :
  Forall (λ t, attempts_made t ≤ n)%nat ts →
  (attempts_made (concat ts) ≤ n * length ts)%nat.
Proof.
  induction 1 as [|t ts Ht _ IH]; simpl; [unfold attempts_made; simpl; lia|].
  rewrite attempts_made_app. lia.
Qed.

Lemma sleeps_concat (ts : list (list event)) n :
  Forall (λ t, length (sleeps t) ≤ n)%nat ts →
  (length (sleeps (concat ts)) ≤ n * length ts)%nat.
Proof.
  induction 1 as [|t ts Ht _ IH]; simpl; [lia|].
  rewrite sleeps_app, length_app. lia.
Qed.

Lemma count_successful_Permutation os os' :
  os ≡ₚ os' → count_successful os = count_successful os'.
Proof. unfold count_successful. by intros ->. Qed.
End bulk_more.

(** X14.  A bulk request for one recipient gives what the single request for
    that recipient gives: the report holds exactly the outcome that
    [send_single_email] answers, and both handlers make the same calls. *)
Theorem bulk_of_one_is_single {codec : Codec}
    (py_int : pyval → string + Z) (cpu_count : nat)
    (env : nat → nat → server) (sched : nat → nat)
    (data : gmap string pyval) (r : pyval) (port : Z) :
  BulkSendRequest py_int data [r] port →
  truthy r = true →
  ∃ (o : outcome) (t : list event),
    send_single_email py_int (env 0%nat) (<["to" := r]> data)
      = ((OutcomeJson o, 200), t)
    ∧ send_bulk_emails py_int cpu_count env sched data
      = ((ReportJson (batch_report [o]), 200), t).
Proof.
  intros Hreq Hr.
  destruct (send_bulk_emails_accepted py_int cpu_count env sched data [r] port Hreq)
    as (out & Hperm & ->).
  simpl in Hperm. apply Permutation_singleton_r in Hperm as ->.
  destruct Hreq as (Hf & Hp & Hs & Hb & _ & _ & Hport & _).
  destruct (send_email (request_sender data port) (env 0%nat) r
              (get data "subject" PyNone) (get data "body" PyNone))
    as [o t] eqn:Hsend.
  exists o, t. split.
  - unfold send_single_email, EmailSender_init, get in *.
    rewrite lookup_insert_eq, !lookup_insert_ne by done.
    cbn [default forallb id]. rewrite Hf, Hp, Hs, Hb, Hr, Hport. cbn [andb negb].
    unfold request_sender, get in Hsend. by rewrite Hsend.
  - simpl. by rewrite app_nil_r.
Qed.

(** X15.  When [int(smtp_port)] raises, [send_bulk_emails] answers 500 with
    the text of the exception, and no recipient is sent to. *)
Theorem bulk_port_error {codec : Codec}
    (py_int : pyval → string + Z) (cpu_count : nat)
    (env : nat → nat → server) (sched : nat → nat)
    (data : gmap string pyval) (r : pyval) (rs : list pyval) (msg : string) :
  truthy (get data "from" PyNone) = true →
  truthy (get data "password" PyNone) = true →
  truthy (get data "subject" PyNone) = true →
  truthy (get data "body" PyNone) = true →
  get data "recipients" (PyList []) = PyList (r :: rs) →
  py_int (get data "smtp_port" (PyStr "465")) = inl msg →
  send_bulk_emails py_int cpu_count env sched data
  = ((ErrorJson false msg, 500), []).
Proof.
  intros Hf Hp Hs Hb Hr Hport. unfold send_bulk_emails, EmailSender_init.
  rewrite Hr, Hport. cbn [forallb truthy]. by rewrite Hf, Hp, Hs, Hb.
Qed.

(** X16.  A number of workers that is an integer but not positive is not
    caught by the validation: the request passes it, the executor refuses to
    start, and the handler answers 500, not 400, with no recipient sent to. *)
Theorem bulk_workers_not_positive {codec : Codec}
    (py_int : pyval → string + Z) (cpu_count : nat)
    (env : nat → nat → server) (sched : nat → nat)
    (data : gmap string pyval) (r : pyval) (rs : list pyval)
    (port : Z) (w : Z) :
  truthy (get data "from" PyNone) = true →
  truthy (get data "password" PyNone) = true →
  truthy (get data "subject" PyNone) = true →
  truthy (get data "body" PyNone) = true →
  get data "recipients" (PyList []) = PyList (r :: rs) →
  py_int (get data "smtp_port" (PyStr "465")) = inr port →
  data !! "max_workers" = Some (PyInt w) → w ≤ 0 →
  send_bulk_emails py_int cpu_count env sched data
  = ((ErrorJson false "max_workers must be greater than 0", 500), []).
Proof.
  intros Hf Hp Hs Hb Hr Hport Hw Hle.
  unfold send_bulk_emails, EmailSender_init.
  rewrite Hr, Hport. cbn [forallb truthy]. rewrite Hf, Hp, Hs, Hb.
  unfold get at 1. rewrite Hw. cbn [default ThreadPoolExecutor_init].
  cbn [andb negb isinstance_list items orb length].
  rewrite bool_decide_eq_false_2 by done. cbn [ThreadPoolExecutor_init id].
  by rewrite decide_True.
Qed.

(** X17.  The two texts of the 400 answer.  "Recipients must be a non-empty
    list" is the answer exactly when the five values are true and the
    recipients are not a list; an empty list of recipients is answered by
    "Missing required fields". *)
Theorem bulk_rejection_texts {codec : Codec}
    (py_int : pyval → string + Z) (cpu_count : nat)
    (env : nat → nat → server) (sched : nat → nat)
    (data : gmap string pyval) :
  ((send_bulk_emails py_int cpu_count env sched data).1
     = (ErrorJson false "Recipients must be a non-empty list", 400)
   ↔ forallb truthy [get data "from" PyNone; get data "password" PyNone;
                     get data "recipients" (PyList []);
                     get data "subject" PyNone; get data "body" PyNone] = true
     ∧ isinstance_list (get data "recipients" (PyList [])) = false)
  ∧ (get data "recipients" (PyList []) = PyList [] →
     send_bulk_emails py_int cpu_count env sched data
     = ((ErrorJson false "Missing required fields", 400), [])).
Proof.
  split.
  2: { intros Hr. unfold send_bulk_emails. rewrite Hr. cbn [forallb truthy].
       by destruct (truthy (get data "from" PyNone)),
                   (truthy (get data "password" PyNone)). }
  unfold send_bulk_emails.
  destruct (forallb truthy _) eqn:Hall; cbn [negb].
  2: { simpl. split; [done | by intros [? _]]. }
  cbn [forallb] in Hall. rewrite !andb_true_iff in Hall.
  destruct Hall as (_ & _ & Hr & _).
  destruct (get data "recipients" (PyList [])) as [| | | |l|] eqn:Hrec;
    cbn [isinstance_list negb orb]; try (simpl; split; done).
  destruct l as [|r l]; [done|]. cbn [items length].
  rewrite bool_decide_eq_false_2 by done.
  split; [|by intros [_ ?]].
  repeat case_match; simpl; intros [=].
Qed.

(** X18.  For a BulkSendRequest the handler opens at most [max_retries]
    connections for each recipient, and sleeps fewer than [max_retries]
    times for each recipient, whatever the servers and the scheduler do. *)
Theorem bulk_connections_bounded {codec : Codec}
    (py_int : pyval → string + Z) (cpu_count : nat)
    (env : nat → nat → server) (sched : nat → nat)
    (data : gmap string pyval) (rs : list pyval) (port : Z) :
  BulkSendRequest py_int data rs port →
  let t := (send_bulk_emails py_int cpu_count env sched data).2 in
  (attempts_made t ≤ max_retries * length rs)%nat
  ∧ (length (sleeps t) ≤ (max_retries - 1) * length rs)%nat.
Proof.
  intros Hreq.
  destruct (send_bulk_emails_accepted py_int cpu_count env sched data rs port Hreq)
    as (out & Hperm & ->).
  cbn [snd].
  assert (length (out.*2) = length rs) as Hlen.
  { by rewrite length_fmap, Hperm, length_imap. }
  assert (Forall (λ x : outcome * list event,
                    (attempts_made x.2 ≤ max_retries)%nat
                    ∧ (length (sleeps x.2) ≤ max_retries - 1)%nat) out) as Hall.
  { rewrite Hperm. apply Forall_forall. intros x Hx.
    apply elem_of_lookup_imap in Hx as (i & r & -> & _).
    pose proof (send_email_bounds (request_sender data port) (env i) r
                  (get data "subject" PyNone) (get data "body" PyNone)) as [? ?].
    split; [done | lia]. }
  rewrite <-Hlen. split.
  - apply attempts_made_concat, Forall_fmap.
    eapply Forall_impl; [exact Hall|]. by intros x [? _].
  - apply sleeps_concat, Forall_fmap.
    eapply Forall_impl; [exact Hall|]. by intros x [_ ?].
Qed.

(** X19.  What the report counts does not depend on the pool: for a
    BulkSendRequest, two schedulers, two numbers of processors and any other
    positive number of workers give reports with the same results up to
    their order, and the same [total], [successful] and [failed]. *)
Theorem bulk_counts_independent_of_pool {codec : Codec}
    (py_int : pyval → string + Z) (cpu_count cpu_count' : nat)
    (env : nat → nat → server) (sched sched' : nat → nat)
    (data : gmap string pyval) (rs : list pyval) (port : Z) (w : Z) :
  BulkSendRequest py_int data rs port →
  0 < w →
  ∃ report report' : BatchReport,
    (send_bulk_emails py_int cpu_count env sched data).1
      = (ReportJson report, 200)
    ∧ (send_bulk_emails py_int cpu_count' env sched'
         (<["max_workers" := PyInt w]> data)).1
      = (ReportJson report', 200)
    ∧ results report ≡ₚ results report'
    ∧ total report = total report'
    ∧ successful report = successful report'
    ∧ failed report = failed report'.
Proof.
  intros Hreq Hw.
  pose proof (BulkSendRequest_max_workers py_int data rs port w Hreq Hw) as Hreq'.
  destruct (send_bulk_emails_accepted py_int cpu_count env sched data rs port Hreq)
    as (out & Hperm & ->).
  destruct (send_bulk_emails_accepted py_int cpu_count' env sched' _ rs port Hreq')
    as (out' & Hperm' & ->).
  rewrite request_sender_max_workers in Hperm'.
  unfold get in Hperm'. rewrite !lookup_insert_ne in Hperm' by done.
  fold (get data "subject" PyNone) (get data "body" PyNone) in Hperm'.
  assert (out.*1 ≡ₚ out'.*1) as Hres by (by rewrite Hperm, Hperm').
  exists (batch_report (out.*1)), (batch_report (out'.*1)).
  cbn [fst batch_report results total successful failed].
  rewrite (count_successful_Permutation _ _ Hres), (Permutation_length Hres).
  done.
Qed.

(** X20.  The bulk handler tests the list of recipients, not its elements.  A
    recipient that is empty or null, which [send_single_email] turns down
    with 400, is sent to like any other when it stands in the list of a bulk
    request, and its outcome is in the report. *)
Theorem bulk_does_not_validate_each_recipient {codec : Codec}
    (py_int : pyval → string + Z) (cpu_count : nat)
    (env : nat → nat → server) (sched : nat → nat)
    (data : gmap string pyval) (rs : list pyval) (port : Z)
    (i : nat) (r : pyval) :
  BulkSendRequest py_int data rs port →
  rs !! i = Some r →
  truthy r = false →
  send_single_email py_int (env i) (<["to" := r]> data)
    = ((SingleError false "Missing required fields", 400), [])
  ∧ ∃ report : BatchReport,
      (send_bulk_emails py_int cpu_count env sched data).1
        = (ReportJson report, 200)
      ∧ outcome_of data port env i r ∈ results report.
Proof.
  intros Hreq Hi Hr. split.
  - destruct Hreq as (Hf & Hp & _).
    unfold send_single_email, get in *.
    rewrite lookup_insert_eq, !lookup_insert_ne by done.
    cbn [default forallb id]. by rewrite Hf, Hp, Hr.
  - destruct (send_bulk_emails_accepted py_int cpu_count env sched data rs port Hreq)
      as (out & Hperm & ->).
    exists (batch_report (out.*1)). split; [done|].
    cbn [results batch_report]. rewrite Hperm, fmap_imap.
    apply elem_of_lookup_imap. by exists i, r.
Qed.

(** ** The further theorems at example inputs *)

Section more_examples.
#[local] Existing Instance utf8_strict.

(** One refused login, then a delivery on the second attempt. *)
Lemma success_ends_retries_witness :
  let '(o, t) := send_email example_sender env_second_ok (PyStr "bob@example.org")
                   (PyStr "Hello") (PyStr "line1") in
  o = sent (PyStr "bob@example.org")
  ∧ attempts_made t = 2%nat
  ∧ sleeps t = replicate 1 retry_delay.
Proof.
  apply (success_ends_retries example_sender env_second_ok
           (PyStr "bob@example.org") (PyStr "Hello") (PyStr "line1") 1).
  - unfold max_retries. lia.
  - intros a Ha. assert (a = 0%nat) as -> by lia.
    exists (Raise SMTPException "(421, b'busy')").
    split; [reflexivity | left; reflexivity].
  - reflexivity.
Defined.

(** One refused login, then a refused recipient. *)
Lemma recipient_refused_ends_retries_witness :
  let '(o, t) := send_email example_sender env_busy_then_refused
                   (PyStr "bob@example.org") (PyStr "Hello") (PyStr "line1") in
  o = not_sent (PyStr "bob@example.org") "Recipient address rejected"
  ∧ attempts_made t = 2%nat
  ∧ sleeps t = replicate 1 retry_delay.
Proof.
  apply (recipient_refused_ends_retries example_sender env_busy_then_refused
           (PyStr "bob@example.org") (PyStr "Hello") (PyStr "line1") 1
           (Raise SMTPRecipientsRefused "{'bob@example.org': (550, b'no')}")).
  - unfold max_retries. lia.
  - intros a Ha. assert (a = 0%nat) as -> by lia.
    exists (Raise SMTPException "(421, b'busy')").
    split; [reflexivity | left; reflexivity].
  - reflexivity.
  - reflexivity.
Defined.

(** One refused login, then rejected credentials. *)
Lemma authentication_failure_ends_retries_witness :
  let '(o, t) := send_email example_sender env_busy_then_auth
                   (PyStr "bob@example.org") (PyStr "Hello") (PyStr "line1") in
  o = not_sent (PyStr "bob@example.org")
        "Authentication failed. Check email/password"
  ∧ attempts_made t = 2%nat
  ∧ sleeps t = replicate 1 retry_delay.
Proof.
  apply (authentication_failure_ends_retries example_sender env_busy_then_auth
           (PyStr "bob@example.org") (PyStr "Hello") (PyStr "line1") 1
           (Raise SMTPAuthenticationError "(535, b'rejected')")).
  - unfold max_retries. lia.
  - intros a Ha. assert (a = 0%nat) as -> by lia.
    exists (Raise SMTPException "(421, b'busy')").
    split; [reflexivity | left; reflexivity].
  - reflexivity.
  - reflexivity.
Defined.

(** The server that is busy twice: two connections, one pause. *)
Lemma send_email_trace_shape_witness :
  attempts_made (send_email example_sender env_second_ok
                   (PyStr "bob@example.org") (PyStr "Hello") (PyStr "line1")).2
  = 2%nat
  ∧ sleeps (send_email example_sender env_second_ok (PyStr "bob@example.org")
              (PyStr "Hello") (PyStr "line1")).2
    = replicate (2 - 1) retry_delay.
Proof.
  split; [reflexivity|].
  exact (proj2 (send_email_trace_shape example_sender env_second_ok
                  (PyStr "bob@example.org") (PyStr "Hello") "line1"
                  encodes_line1)).
Defined.

(** A body that is the one character U+D800, on a server that would take
    everything. *)
Lemma body_not_encoded_never_connects_witness :
  send_email example_sender (λ _, server_ok) (PyStr "bob@example.org")
    (PyStr "Hello") (PyStr lone_surrogate)
  = (not_sent (PyStr "bob@example.org")
       ("'utf-8' codec can't encode character '" +:+ backslash
        +:+ "ud800' in position 0: surrogates not allowed"),
     [Sleep 1; Sleep 1]).
Proof.
  apply (body_not_encoded_never_connects example_sender (λ _, server_ok)
           (PyStr "bob@example.org") (PyStr "Hello") lone_surrogate).
  left. vm_compute. reflexivity.
Defined.

(** A body that is the number 5. *)
Lemma body_not_str_never_connects_witness :
  send_email example_sender env_busy (PyStr "bob@example.org") (PyStr "Hello")
    (PyInt 5)
  = (not_sent (PyStr "bob@example.org")
       "'int' object has no attribute 'replace'",
     [Sleep 1; Sleep 1]).
Proof.
  apply (body_not_str_never_connects example_sender env_busy
           (PyStr "bob@example.org") (PyStr "Hello") (PyInt 5)).
  intros text. discriminate.
Defined.

(** A server that takes everything. *)
Lemma success_means_accepted_witness :
  ∃ a text,
    (a < max_retries)%nat
    ∧ PyStr "line1" = PyStr text
    ∧ server_ok (login (email example_sender) (password example_sender)) = None
    ∧ server_ok (send_message (build_message (email example_sender)
                                 (PyStr "bob@example.org") (PyStr "Hello") text))
      = None
    ∧ server_ok quit = None
    ∧ Call (send_message (build_message (email example_sender)
                            (PyStr "bob@example.org") (PyStr "Hello") text))
        ∈ (send_email example_sender (λ _, server_ok) (PyStr "bob@example.org")
             (PyStr "Hello") (PyStr "line1")).2.
Proof.
  apply (success_means_accepted example_sender (λ _, server_ok)
           (PyStr "bob@example.org") (PyStr "Hello") (PyStr "line1")).
  reflexivity.
Defined.

(** The server that takes the message and fails the [QUIT]. *)
Lemma failing_quit_transmits_again_witness :
  let '(o, t) := send_email example_sender env_quit_fails
                   (PyStr "bob@example.org") (PyStr "Hello") (PyStr "line1") in
  success o = false ∧ deliveries t = 3%nat ∧ attempts_made t = 3%nat.
Proof.
  apply (failing_quit_transmits_again example_sender env_quit_fails
           (PyStr "bob@example.org") (PyStr "Hello") "line1" encodes_line1).
  - intros a c Hc. destruct c; first [reflexivity | contradiction].
  - intros a. exists (Raise SMTPException "(451, b'try later')").
    split; [reflexivity | left; reflexivity].
Defined.

(** The example sender with its flag turned off. *)
Lemma use_ssl_not_consulted_witness :
  send_email example_sender env_third (PyStr "bob@example.org") (PyStr "Hello")
    (PyStr "line1")
  = send_email
      {| smtp_server := PyStr "smtp.hostinger.com"; smtp_port := 465;
         email := PyStr "ann@example.org"; password := PyStr "secret";
         use_ssl := false |}
      env_third (PyStr "bob@example.org") (PyStr "Hello") (PyStr "line1").
Proof.
  apply use_ssl_not_consulted; reflexivity.
Defined.

(** The example request of one recipient has its five fields. *)
Lemma example_single_fields key :
  key ∈ single_required_fields →
  truthy (get example_single key PyNone) = true.
Proof.
  unfold single_required_fields. intros Hkey.
  apply elem_of_cons in Hkey as [-> | Hkey]; [reflexivity|].
  apply elem_of_cons in Hkey as [-> | Hkey]; [reflexivity|].
  apply elem_of_cons in Hkey as [-> | Hkey]; [reflexivity|].
  apply elem_of_cons in Hkey as [-> | Hkey]; [reflexivity|].
  apply elem_of_cons in Hkey as [-> | Hkey]; [reflexivity|].
  by apply elem_of_nil in Hkey.
Defined.

(** A single request with an empty subject. *)
Lemma single_rejected_before_sending_witness :
  send_single_email int_digits env_busy
    (<["subject" := PyStr EmptyString]> example_single)
  = ((SingleError false "Missing required fields", 400), []).
Proof.
  apply (single_rejected_before_sending int_digits env_busy _ "subject").
  - unfold single_required_fields. repeat constructor.
  - reflexivity.
Defined.

(** A single request to a server that is always busy: a failure with 200. *)
Lemma single_answers_200_with_outcome_witness :
  send_single_email int_digits env_busy example_single
  = ((OutcomeJson (not_sent (PyStr "bob@example.org")
                     "SMTP error: (421, b'busy')"), 200),
     (send_email (request_sender example_single 465) env_busy
        (PyStr "bob@example.org") (PyStr "Hello") (PyStr "line1")).2).
Proof.
  exact (proj1 (single_answers_200_with_outcome int_digits env_busy
                  example_single 465 example_single_fields eq_refl)).
Defined.

(** A single request whose port is a word. *)
Lemma single_port_error_witness :
  send_single_email int_digits env_busy
    (<["smtp_port" := PyStr "smtps"]> example_single)
  = ((SingleError false "invalid literal for int() with base 10: 'smtps'", 500),
     []).
Proof.
  apply single_port_error; [|reflexivity].
  intros key Hkey. unfold get.
  assert (key ≠ "smtp_port") as Hne.
  { intros ->. unfold single_required_fields in Hkey.
    repeat (apply elem_of_cons in Hkey as [Hkey | Hkey]; [discriminate|]).
    by apply elem_of_nil in Hkey. }
  rewrite lookup_insert_ne by done. by apply example_single_fields.
Defined.

(** The bulk request for one recipient is a BulkSendRequest. *)
Lemma example_bulk_one_accepted :
  BulkSendRequest int_digits example_bulk_one [PyStr "bob@example.org"] 465.
Proof.
  split_and!; try reflexivity; [discriminate|].
  exists 20. split; reflexivity.
Defined.

(** One recipient, asked for in bulk and alone. *)
Lemma bulk_of_one_is_single_witness :
  ∃ (o : outcome) (t : list event),
    send_single_email int_digits env_third
      (<["to" := PyStr "bob@example.org"]> example_bulk_one)
      = ((OutcomeJson o, 200), t)
    ∧ send_bulk_emails int_digits 4 (λ _, env_third) example_sched example_bulk_one
      = ((ReportJson (batch_report [o]), 200), t).
Proof.
  apply (bulk_of_one_is_single int_digits 4 (λ _, env_third) example_sched
           example_bulk_one (PyStr "bob@example.org") 465
           example_bulk_one_accepted).
  reflexivity.
Defined.

(** A bulk request whose port is a word. *)
Lemma bulk_port_error_witness :
  send_bulk_emails int_digits 4 env_second_fails example_sched
    (<["smtp_port" := PyStr "smtps"]> example_request)
  = ((ErrorJson false "invalid literal for int() with base 10: 'smtps'", 500),
     []).
Proof.
  apply (bulk_port_error int_digits 4 env_second_fails example_sched _
           (PyStr "bob@example.org")
           [PyStr "eve@example.org"; PyStr "bob@example.org"]);
    reflexivity.
Defined.

(** A bulk request for no worker at all. *)
Lemma bulk_workers_not_positive_witness :
  send_bulk_emails int_digits 4 env_second_fails example_sched
    (<["max_workers" := PyInt 0]> example_request)
  = ((ErrorJson false "max_workers must be greater than 0", 500), []).
Proof.
  apply (bulk_workers_not_positive int_digits 4 env_second_fails example_sched _
           (PyStr "bob@example.org")
           [PyStr "eve@example.org"; PyStr "bob@example.org"] 465 0);
    first [reflexivity | lia].
Defined.

(** An empty list of recipients is answered as a missing field. *)
Lemma bulk_rejection_texts_witness :
  send_bulk_emails int_digits 4 env_second_fails example_sched
    (<["recipients" := PyList []]> example_request)
  = ((ErrorJson false "Missing required fields", 400), []).
Proof.
  exact (proj2 (bulk_rejection_texts int_digits 4 env_second_fails example_sched
                  (<["recipients" := PyList []]> example_request)) eq_refl).
Defined.

(** Three recipients: at most nine connections and six pauses. *)
Lemma bulk_connections_bounded_witness :
  (attempts_made (send_bulk_emails int_digits 4 env_second_fails example_sched
                    example_request).2 ≤ max_retries * 3)%nat
  ∧ (length (sleeps (send_bulk_emails int_digits 4 env_second_fails example_sched
                       example_request).2) ≤ (max_retries - 1) * 3)%nat.
Proof.
  exact (bulk_connections_bounded int_digits 4 env_second_fails example_sched
           example_request _ 465 example_request_accepted).
Defined.

(** The example request on twenty workers and on one. *)
Lemma bulk_counts_independent_of_pool_witness :
  ∃ report report' : BatchReport,
    (send_bulk_emails int_digits 4 env_second_fails example_sched
       example_request).1 = (ReportJson report, 200)
    ∧ (send_bulk_emails int_digits 1 env_second_fails (λ _, 0%nat)
         (<["max_workers" := PyInt 1]> example_request)).1
      = (ReportJson report', 200)
    ∧ results report ≡ₚ results report'
    ∧ total report = total report'
    ∧ successful report = successful report'
    ∧ failed report = failed report'.
Proof.
  apply (bulk_counts_independent_of_pool int_digits 4 1 env_second_fails
           example_sched (λ _, 0%nat) example_request _ 465 1
           example_request_accepted).
  lia.
Defined.

(** A list of recipients with an empty address in it. *)
Lemma example_with_empty_recipient_accepted :
  BulkSendRequest int_digits
    (<["recipients" := PyList [PyStr "bob@example.org"; PyStr EmptyString]]>
       example_request)
    [PyStr "bob@example.org"; PyStr EmptyString] 465.
Proof.
  split_and!; try reflexivity; [discriminate|].
  exists 20. split; reflexivity.
Defined.

(** The empty address: 400 alone, a result in bulk. *)
Lemma bulk_does_not_validate_each_recipient_witness :
  send_single_email int_digits (env_second_fails 1)
    (<["to" := PyStr EmptyString]>
       (<["recipients" := PyList [PyStr "bob@example.org"; PyStr EmptyString]]>
          example_request))
    = ((SingleError false "Missing required fields", 400), [])
  ∧ ∃ report : BatchReport,
      (send_bulk_emails int_digits 4 env_second_fails example_sched
         (<["recipients" := PyList [PyStr "bob@example.org"; PyStr EmptyString]]>
            example_request)).1
        = (ReportJson report, 200)
      ∧ outcome_of
          (<["recipients" := PyList [PyStr "bob@example.org"; PyStr EmptyString]]>
             example_request)
          465 env_second_fails 1 (PyStr EmptyString)
        ∈ results report.
Proof.
  apply (bulk_does_not_validate_each_recipient int_digits 4 env_second_fails
           example_sched _ _ 465 1 (PyStr EmptyString)
           example_with_empty_recipient_accepted);
    reflexivity.
Defined.
End more_examples.
